(** * RadioTrack: the authentication and access-control core

    A shallow embedding of [auth.py] (credential lifecycle, lockout state
    machine, password policy, role checks), of the role table of [config.py]
    and of the persistence executor of [db_manager.py]
    ([DatabaseManager.execute_query] and the [with_retries] decorator),
    followed by the properties established about them.

    Conventions of the embedding.
    - A Python [str] is a Rocq [string]; the [str] predicates are those of
      the ASCII range, on which [encode('utf-8')] and [decode('utf-8')]
      are the identity.
    - A naive [datetime] is a number of microseconds since a midnight
      ([Z]), so that its calendar date is the number of whole days.  The
      local clock read by [datetime.now()] is an explicit argument [now]
      of every operation that reads it.  SQL's [CURRENT_TIMESTAMP] reads
      the UTC clock: the time zone of the machine ([TimeZone]) gives its
      reading at the instant the local clock reads [now].  A [DATETIME]
      column holds the text it was given, and SQLite compares two texts
      byte by byte.
    - The random salt drawn by [bcrypt.gensalt] is an explicit argument.
    - The relational store is a record of tables; a statement is a function
      on it.  Storage failures are drawn from an oracle carried by the
      world, one entry per call of [execute_query]. *)

From Stdlib Require Import ZArith Ascii String List Sorted Lia.
From stdpp Require Import base option list strings gmap fin_maps pretty.

Local Open Scope Z_scope.
#[local] Set Warnings "-register-all".

(** ** Python values *)

(** The fragment of Python objects that reaches [check_user_permission]:
    a dictionary has string keys and keeps insertion order. *)
Inductive pyobj : Type :=
  | PyNone
  | PyBool (b : bool)
  | PyInt (z : Z)
  | PyStr (s : string)
  | PyTuple (items : list pyobj)
  | PyList (items : list pyobj)
  | PyDict (entries : list (string * pyobj)).

(** Exceptions that escape the modelled functions. *)
Inductive pyexn : Type :=
  | AttributeError
  | TypeError.

Inductive pyresult (A : Type) : Type :=
  | Return (a : A)
  | Raise (e : pyexn).
Arguments Return {A} a.
Arguments Raise {A} e.

Definition pybind {A B} (r : pyresult A) (k : A -> pyresult B) : pyresult B :=
  match r with
  | Return a => k a
  | Raise e => Raise e
  end.

(** [bool(o)]: the truth value Python gives an object. *)
Definition truthy (o : pyobj) : bool :=
  match o with
  | PyNone => false
  | PyBool b => b
  | PyInt z => negb (z =? 0)
  | PyStr s => negb (String.eqb s "")
  | PyTuple items | PyList items => negb (Nat.eqb (length items) 0)
  | PyDict entries => negb (Nat.eqb (length entries) 0)
  end.

(** [isinstance(o, tuple)] *)
Definition isinstance_tuple (o : pyobj) : bool :=
  match o with
  | PyTuple _ => true
  | _ => false
  end.

(** [isinstance(o, dict)] *)
Definition isinstance_dict (o : pyobj) : bool :=
  match o with
  | PyDict _ => true
  | _ => false
  end.

(** Whether [hash(o)] succeeds: lists and dictionaries are unhashable, a
    tuple is hashable when its items are. *)
Fixpoint hashable (o : pyobj) : bool :=
  match o with
  | PyList _ | PyDict _ => false
  | PyTuple items => forallb hashable items
  | _ => true
  end.

(** [d.get(key, default)] on a dictionary with string keys. *)
Fixpoint dict_get (entries : list (string * pyobj)) (key : string)
    (default : pyobj) : pyobj :=
  match entries with
  | [] => default
  | (k, v) :: rest => if String.eqb k key then v else dict_get rest key default
  end.

(** ** Characters and strings *)

Definition code_point (c : ascii) : Z := Z.of_nat (nat_of_ascii c).

Definition isupper (c : ascii) : bool :=
  (65 <=? code_point c) && (code_point c <=? 90).

Definition islower (c : ascii) : bool :=
  (97 <=? code_point c) && (code_point c <=? 122).

Definition isdigit (c : ascii) : bool :=
  (48 <=? code_point c) && (code_point c <=? 57).

Definition isalnum (c : ascii) : bool :=
  isupper c || islower c || isdigit c.

(** [any(p(c) for c in s)] *)
Definition any_char (p : ascii -> bool) (s : string) : bool :=
  existsb p (list_ascii_of_string s).

(** [len(s)] *)
Definition len (s : string) : Z := Z.of_nat (String.length s).

(** [s.encode('utf-8')] and [b.decode('utf-8')] *)
Definition encode_utf8 (s : string) : string := s.
Definition decode_utf8 (b : string) : string := b.

(** ** bcrypt

    The library is not part of the repository.  Its interface is taken as
    a class: the digest function is a parameter, the shape of salts and
    hashes is the one of the modular crypt format, [$2b$] then a two-digit
    cost then [$], 22 salt characters and 31 digest characters.  A hash
    starts with the 29 characters of the salt it was made with, and
    [checkpw] recomputes the hash from them.  Only the first 72 bytes of a
    password enter the digest, the limit of the algorithm: the library
    ignores the bytes past them.  Salts and hashes handed to the library
    are taken to be well formed; the [ValueError] it raises on others is
    not modelled. *)
Class Bcrypt : Type := {
  (** digest of the password bytes under a 29-character salt *)
  bcrypt_digest : string -> string -> string;
  (** the digest is rendered in 31 characters *)
  bcrypt_digest_length :
    forall salt password_bytes,
      String.length (bcrypt_digest salt password_bytes) = 31%nat
}.

(** The salt a hash was made with: its leading 29 characters. *)
Definition hash_salt (hashed : string) : string :=
  String.substring 0 29 hashed.

Section BcryptLibrary.
Context `{Bcrypt}.

(** [bcrypt.hashpw(password, salt)]; [salt] is a salt or a whole hash. *)
Definition hashpw (password_bytes salt : string) : string :=
  let salt29 := hash_salt salt in
  salt29 +:+ bcrypt_digest salt29 (String.substring 0 72 password_bytes).

(** [bcrypt.checkpw(password, hashed_password)] *)
Definition checkpw (password_bytes hashed_bytes : string) : bool :=
  String.eqb (hashpw password_bytes hashed_bytes) hashed_bytes.
End BcryptLibrary.

(** ** Password subsystem of [auth.py] *)

Section Passwords.
Context `{Bcrypt}.

(** [hash_password(password)], [salt] being the value returned by
    [bcrypt.gensalt(rounds=12)]. *)
Definition hash_password (salt : string) (password : string) : string :=
  let password_bytes := encode_utf8 password in
  let hashed := hashpw password_bytes salt in
  decode_utf8 hashed.

Definition verify_password (password hashed_password : string) : bool :=
  let password_bytes := encode_utf8 password in
  let hashed_bytes := encode_utf8 hashed_password in
  checkpw password_bytes hashed_bytes.
End Passwords.

Definition validate_password_strength (password : string) : bool * string :=
  let MIN_PASSWORD_LENGTH := 8 in
  if len password <? MIN_PASSWORD_LENGTH then
    (false,
     "Password must be at least " +:+ pretty MIN_PASSWORD_LENGTH
       +:+ " characters long")
  else
    let has_upper := any_char isupper password in
    let has_lower := any_char islower password in
    let has_digit := any_char isdigit password in
    let has_special := any_char (fun c => negb (isalnum c)) password in
    if negb (has_upper && has_lower && has_digit && has_special) then
      (false,
       "Password must contain at least one uppercase letter, one lowercase letter, one number, and one special character")
    else (true, "Password meets requirements").

(** ** The store *)

(** A timestamp: the microseconds between a midnight and a naive
    [datetime]. *)
Definition timestamp : Type := Z.

(** The calendar date of a timestamp, in days: the first ten characters
    [YYYY-MM-DD] of its text, which compare as the dates do. *)
Definition date_of (t : timestamp) : Z := t `div` 86400000000.

(** The time zone of the machine: [utc_of_local now] is the reading of the
    UTC clock at the instant the local clock reads [now]. *)
Class TimeZone : Type := { utc_of_local : timestamp -> timestamp }.

(** [timedelta(minutes=m)] and [timedelta(days=d)] *)
Definition timedelta_minutes (m : Z) : Z := m * 60 * 1000000.
Definition timedelta_days (d : Z) : Z := d * 86400 * 1000000.

(** A row of [employees], without its [username], which is the key of the
    table ([username TEXT NOT NULL UNIQUE]). *)
Record employee : Type := Employee {
  emp_id : Z;
  emp_first_name : string;
  emp_last_name : string;
  emp_user_role : string;
  emp_password : string;
  emp_password_change_required : bool;
  emp_is_approved : bool;
  emp_last_password_change : option timestamp
}.

(** A row of [login_attempts], keyed by [username] ([UNIQUE(username)]). *)
Record login_attempt : Type := LoginAttempt {
  failed_attempts : Z;
  lockout_until : option timestamp
}.

(** A row of [password_history]. *)
Record history_row : Type := HistoryRow {
  hist_employee_id : Z;
  hist_password_hash : string;
  hist_created_date : timestamp
}.

Record database : Type := Database {
  employees : gmap string employee;
  login_attempts : gmap string login_attempt;
  password_history : list history_row
}.

(** What can go wrong in one call of [execute_query]: [get_connection]
    fails, or the statement, the fetch or the commit raises
    [sqlite3.Error]. *)
Inductive db_fault : Type :=
  | ConnectionFault (e : string)
  | SqliteFault (e : string).

Inductive log_level : Type := LOG_WARNING | LOG_ERROR.


Definition fault_message (f : db_fault) : string :=
  match f with
  | ConnectionFault e | SqliteFault e => e
  end.

(** The world an operation runs in: the store, the faults that the coming
    calls of the executor will meet ([None]: the call goes through; past
    the end of the list every call goes through), and the log written so
    far. *)
Record world : Type := World {
  db : database;
  faults : list (option db_fault);
  log : list (log_level * string)
}.

(** Operations thread the world. *)
Definition M (A : Type) : Type := world -> A * world.

Definition ret {A} (a : A) : M A := fun w => (a, w).

Definition bind {A B} (m : M A) (k : A -> M B) : M B :=
  fun w => let (a, w') := m w in k a w'.

Declare Scope m_scope.
Delimit Scope m_scope with M.
Notation "x <- c1 ;; c2" := (bind c1 (fun x => c2))
  (at level 100, c1 at next level, right associativity) : m_scope.
Notation "c1 ;; c2" := (bind c1 (fun _ => c2))
  (at level 100, right associativity) : m_scope.
Local Open Scope m_scope.

(** The value an operation returns in a world, and the world it leaves. *)
Definition result {A} (m : M A) (w : world) : A := fst (m w).
Definition after {A} (m : M A) (w : world) : world := snd (m w).

Definition logger (level : log_level) (msg : string) : M unit :=
  fun w => (tt, {| db := db w; faults := faults w;
                   log := log w ++ [(level, msg)] |}).

(** A statement with its parameters bound: the rows the cursor holds after
    it ran and the store it leaves. *)
Definition statement (R : Type) : Type := database -> list R * database.

(** What [execute_query] returns: the fetched rows or [True], and [None]
    or [False] after a failure. *)
Inductive query_result (R : Type) : Type :=
  | QRows (rows : list R)
  | QTrue
  | QNone
  | QFalse.
Arguments QRows {R} rows.
Arguments QTrue {R}.
Arguments QNone {R}.
Arguments QFalse {R}.

Module DatabaseManager.

(** [execute_query(query, params, fetch, commit)].  A failed call leaves
    the store as it was (rollback, or the connection is closed without a
    commit); so does a call with [commit=False]. *)
Definition execute_query {R} (query : statement R) (fetch commit : bool)
    : M (query_result R) :=
  fun w =>
    match faults w with
    | Some (ConnectionFault e) :: rest =>
        (if fetch then QNone else QFalse,
         {| db := db w; faults := rest;
            log := log w ++ [(LOG_ERROR, "Database connection error: " +:+ e)] |})
    | Some (SqliteFault e) :: rest =>
        (if fetch then QNone else QFalse,
         {| db := db w; faults := rest;
            log := log w ++ [(LOG_ERROR, "Database error: " +:+ e)] |})
    | rest =>
        let (rows, db') := query (db w) in
        (if fetch then QRows rows else QTrue,
         {| db := if commit then db' else db w; faults := tail rest;
            log := log w |})
    end.

End DatabaseManager.

(** *** The SQL statements of [auth.py] *)

(** [SELECT cols FROM employees WHERE username = ?] *)
Definition select_employee {R} (cols : string -> employee -> R)
    (username : string) : statement R :=
  fun d =>
    (match employees d !! username with
     | Some e => [cols username e]
     | None => []
     end, d).

(** [lockout_until > CURRENT_TIMESTAMP], a comparison of two texts.  The
    column holds [lockout_until.isoformat()] of a local [datetime],
    [YYYY-MM-DDTHH:MM:SS.ffffff]; [CURRENT_TIMESTAMP] is the UTC time as
    [YYYY-MM-DD HH:MM:SS].  The first ten characters decide when the dates
    differ; when the dates are equal the eleventh does, and [T] is greater
    than the blank.  The time of day is never compared. *)
Definition after_current_timestamp `{TimeZone} (now : timestamp)
    (lockout_until : timestamp) : bool :=
  date_of (utc_of_local now) <=? date_of lockout_until.

(** [SELECT failed_attempts, lockout_until FROM login_attempts
     WHERE username = ? AND
       (lockout_until IS NULL OR lockout_until > CURRENT_TIMESTAMP)] *)
Definition select_login_attempts `{TimeZone} (now : timestamp)
    (username : string) : statement (Z * option timestamp) :=
  fun d =>
    (match login_attempts d !! username with
     | Some r =>
         match lockout_until r with
         | None => [(failed_attempts r, lockout_until r)]
         | Some t =>
             if after_current_timestamp now t
             then [(failed_attempts r, lockout_until r)]
             else []
         end
     | None => []
     end, d).

(** [DELETE FROM login_attempts WHERE username = ?] *)
Definition delete_login_attempts (username : string) : statement unit :=
  fun d =>
    ([], {| employees := employees d;
            login_attempts := delete username (login_attempts d);
            password_history := password_history d |}).

(** [INSERT OR REPLACE INTO login_attempts
       (username, failed_attempts, lockout_until) VALUES (?, ?, ?)] *)
Definition upsert_login_attempts (username : string) (attempts : Z)
    (until : option timestamp) : statement unit :=
  fun d =>
    ([], {| employees := employees d;
            login_attempts :=
              <[username := LoginAttempt attempts until]> (login_attempts d);
            password_history := password_history d |}).

(** The row [UPDATE employees SET password = ?, password_change_required =
    0] leaves for an employee. *)
Definition with_new_password (hashed_password : string) (e : employee)
    : employee :=
  {| emp_id := emp_id e;
     emp_first_name := emp_first_name e;
     emp_last_name := emp_last_name e;
     emp_user_role := emp_user_role e;
     emp_password := hashed_password;
     emp_password_change_required := false;
     emp_is_approved := emp_is_approved e;
     emp_last_password_change := emp_last_password_change e |}.

(** [UPDATE employees SET password = ?, password_change_required = 0
     WHERE username = ?] *)
Definition update_password (hashed_password username : string)
    : statement unit :=
  fun d =>
    ([], {| employees :=
              alter (with_new_password hashed_password) username (employees d);
            login_attempts := login_attempts d;
            password_history := password_history d |}).

(** [SELECT password FROM employees WHERE username = ? AND password = ?] *)
Definition select_password_matching (username hashed_password : string)
    : statement string :=
  fun d =>
    (match employees d !! username with
     | Some e =>
         if String.eqb (emp_password e) hashed_password
         then [emp_password e] else []
     | None => []
     end, d).

(** [ORDER BY created_date DESC]: insertion into a list kept newest
    first. *)
Fixpoint insert_newest_first (r : history_row) (sorted : list history_row)
    : list history_row :=
  match sorted with
  | [] => [r]
  | r' :: rest =>
      if hist_created_date r' <? hist_created_date r
      then r :: r' :: rest
      else r' :: insert_newest_first r rest
  end.

Definition order_by_created_date_desc (rows : list history_row)
    : list history_row :=
  foldr insert_newest_first [] rows.

(** [LIMIT ?]: a negative bound is no bound. *)
Definition sql_limit {A} (n : Z) (rows : list A) : list A :=
  if n <? 0 then rows else take (Z.to_nat n) rows.

(** [SELECT password_hash FROM password_history WHERE employee_id = ?
     ORDER BY created_date DESC LIMIT ?] *)
Definition select_password_history (employee_id history_limit : Z)
    : statement string :=
  fun d =>
    (hist_password_hash <$>
       sql_limit history_limit
         (order_by_created_date_desc
            (filter (fun r => hist_employee_id r = employee_id)
               (password_history d))), d).

(** ** Rate limiting, policy and authentication of [auth.py] *)

Definition _MAX_ATTEMPTS : Z := 5.
Definition _LOCKOUT_MINUTES : Z := 15.

(** [int(x)] of the quotient of two integers: truncation towards zero. *)
Definition int_of_quotient (a b : Z) : Z := Z.quot a b.

(** [get_failed_login_count(username)]; the statements after its [return]
    are never reached. *)
Definition get_failed_login_count `{TimeZone} (now : timestamp)
    (username : string) : M (Z * option timestamp) :=
  result <- DatabaseManager.execute_query
              (select_login_attempts now username) true true ;;
  match result with
  | QRows (row :: _) => ret row
  | _ => ret (0, None)
  end.

(** [check_rate_limit(username)].  [(lockout_until - now).total_seconds()
    / 60] is the number of microseconds over sixty million. *)
Definition check_rate_limit `{TimeZone} (now : timestamp)
    (username : string) : M (bool * option string) :=
  r <- get_failed_login_count now username ;;
  let '(attempts, lockout_until) := r in
  match lockout_until with
  | Some lockout_until =>
      if _MAX_ATTEMPTS <=? attempts then
        if now <? lockout_until then
          ret (false,
               Some ("Account locked. Try again in "
                     +:+ pretty (int_of_quotient (lockout_until - now) 60000000)
                     +:+ " minutes"))
        else ret (true, None)
      else ret (true, None)
  | None => ret (true, None)
  end.

(** [check_password_policy(username)]; the result is [None] where the
    function ends without a [return]. *)
Definition check_password_policy (PASSWORD_EXPIRY_DAYS : Z)
    (now : timestamp) (username : string) : M (option (bool * string)) :=
  result <- DatabaseManager.execute_query
              (select_employee
                 (fun _ e => (emp_last_password_change e,
                              emp_password_change_required e))
                 username) true true ;;
  match result with
  | QRows (row :: _) =>
      let '(last_change, change_required) := row in
      if change_required then
        ret (Some (true, "Password change required by administrator"))
      else
        match last_change with
        | Some last_change =>
            let expiry_date :=
              last_change + timedelta_days PASSWORD_EXPIRY_DAYS in
            if expiry_date <? now then
              ret (Some (true, "Password expired after "
                               +:+ pretty PASSWORD_EXPIRY_DAYS +:+ " days"))
            else ret None
        | None => ret None
        end
  | _ => ret (Some (true, "Password change required"))
  end.

(** [update_login_attempts(username, success)] *)
Definition update_login_attempts `{TimeZone} (now : timestamp)
    (username : string) (success : bool) : M unit :=
  if success then
    DatabaseManager.execute_query (delete_login_attempts username) false true ;;
    ret tt
  else
    r <- get_failed_login_count now username ;;
    let attempts := fst r + 1 in
    let lockout_until :=
      if _MAX_ATTEMPTS <=? attempts
      then Some (now + timedelta_minutes _LOCKOUT_MINUTES)
      else None in
    DatabaseManager.execute_query
      (upsert_login_attempts username attempts lockout_until) false true ;;
    ret tt.

(** The columns read by [authenticate_user]. *)
Record user_row : Type := UserRow {
  row_username : string;
  row_first_name : string;
  row_last_name : string;
  row_user_role : string;
  row_password_change_required : bool;
  row_id : Z;
  row_password : string;
  row_is_approved : bool
}.

Definition user_columns (username : string) (e : employee) : user_row :=
  {| row_username := username;
     row_first_name := emp_first_name e;
     row_last_name := emp_last_name e;
     row_user_role := emp_user_role e;
     row_password_change_required := emp_password_change_required e;
     row_id := emp_id e;
     row_password := emp_password e;
     row_is_approved := emp_is_approved e |}.

(** The dictionary returned for an authenticated user. *)
Definition user_dict (user : user_row) : pyobj :=
  PyDict [("username", PyStr (row_username user));
          ("first_name", PyStr (row_first_name user));
          ("last_name", PyStr (row_last_name user));
          ("role", PyStr (row_user_role user));
          ("password_change_required",
           PyBool (row_password_change_required user));
          ("id", PyInt (row_id user))].

Section Authentication.
Context `{Bcrypt} `{TimeZone}.

(** [authenticate_user(username, password)]: the user or [None], and the
    error message or [None]. *)
Definition authenticate_user (now : timestamp) (username password : string)
    : M (option pyobj * option string) :=
  r <- check_rate_limit now username ;;
  let '(can_attempt, error_msg) := r in
  if negb can_attempt then ret (None, error_msg)
  else
    result <- DatabaseManager.execute_query
                (select_employee user_columns username) true true ;;
    match result with
    | QRows (user :: _) =>
        let stored_hash := row_password user in
        let is_approved := row_is_approved user in
        if negb is_approved then
          ret (None, Some "Your account is pending admin approval")
        else if negb (verify_password password stored_hash) then
          update_login_attempts now username false ;;
          ret (None, Some "Invalid username or password")
        else
          update_login_attempts now username true ;;
          ret (Some (user_dict user), None)
    | _ =>
        update_login_attempts now username false ;;
        ret (None, Some "Invalid username or password")
    end.

(** [change_password(username, old_password, new_password)];
    [old_password] is [None] or a string, [salt] is the salt drawn by
    [hash_password]. *)
Definition change_password (now : timestamp) (salt : string)
    (username : string) (old_password : option string)
    (new_password : string) : M (bool * string) :=
  let store_new_password : M (bool * string) :=
    let hashed_password := hash_password salt new_password in
    DatabaseManager.execute_query
      (update_password hashed_password username) false true ;;
    result <- DatabaseManager.execute_query
                (select_password_matching username hashed_password)
                true true ;;
    match result with
    | QRows (_ :: _) => ret (true, "Password changed successfully")
    | _ => ret (false, "Failed to update password")
    end in
  match old_password with
  | Some old_password =>
      auth_result <- authenticate_user now username old_password ;;
      match fst auth_result with
      | Some user =>
          if negb (truthy user) then
            ret (false, "Current password is incorrect")
          else store_new_password
      | None => ret (false, "Current password is incorrect")
      end
  | None => store_new_password
  end.

(** [is_password_in_history(employee_id, new_password, history_limit)];
    [salt] is the salt drawn by [hash_password]. *)
Definition is_password_in_history (salt : string) (employee_id : Z)
    (new_password : string) (history_limit : Z) : M bool :=
  result <- DatabaseManager.execute_query
              (select_password_history employee_id history_limit)
              true true ;;
  match result with
  | QRows (row :: rows) =>
      let new_hash := hash_password salt new_password in
      ret (existsb (fun row => String.eqb new_hash row) (row :: rows))
  | _ => ret false
  end.
End Authentication.

(** ** Authorization: [ROLE_HIERARCHY] of [config.py] and
    [check_user_permission] *)

Definition ROLE_HIERARCHY : list (string * Z) :=
  [("employee", 1);
   ("manager", 2);
   ("admin", 3);
   ("corrections_supervisor", 3)].

(** [ROLE_HIERARCHY.get(key, default)]: an unhashable key raises
    [TypeError], a key that is not a string is in no entry. *)
Fixpoint role_level (table : list (string * Z)) (role : string) (default : Z)
    : Z :=
  match table with
  | [] => default
  | (k, level) :: rest =>
      if String.eqb k role then level else role_level rest role default
  end.

Definition ROLE_HIERARCHY_get (key : pyobj) (default : Z) : pyresult Z :=
  if negb (hashable key) then Raise TypeError
  else
    match key with
    | PyStr role => Return (role_level ROLE_HIERARCHY role default)
    | _ => Return default
    end.

(** [check_user_permission(user, required_role)] *)
Definition check_user_permission (user required_role : pyobj)
    : pyresult bool :=
  if negb (truthy user) || isinstance_tuple user then Return false
  else
    match user with
    | PyDict entries =>
        let user_role := dict_get entries "role" (PyStr "employee") in
        pybind (ROLE_HIERARCHY_get required_role 0) (fun required_level =>
        pybind (ROLE_HIERARCHY_get user_role 0) (fun user_level =>
        Return (required_level <=? user_level)))
    | _ => Raise AttributeError
    end.

(** ** The retrying executor of [db_manager.py] *)

(** How a call of a wrapped operation ends: it returns, it raises
    [sqlite3.Error] or [DatabaseError], or it raises something else. *)
Inductive outcome (A : Type) : Type :=
  | Returned (a : A)
  | RaisedSqliteError (e : string)
  | RaisedDatabaseError (e : string)
  | RaisedOther (e : pyexn).
Arguments Returned {A} a.
Arguments RaisedSqliteError {A} e.
Arguments RaisedDatabaseError {A} e.
Arguments RaisedOther {A} e.


(** The body of the [for attempt in range(3)] loop of [with_retries] and
    the [raise] that follows the loop; [func] stands for the wrapped call
    with its arguments, the same at every attempt. *)
Fixpoint with_retries_loop {A} (func : M (outcome A)) (attempts : list Z)
    (last_error : option string) : M (outcome A) :=
  match attempts with
  | [] =>
      ret (RaisedDatabaseError
             ("Database operation failed after 3 attempts: "
              +:+ default "None" last_error))
  | attempt :: rest =>
      r <- func ;;
      match r with
      | Returned a => ret (Returned a)
      | RaisedSqliteError e | RaisedDatabaseError e =>
          (if attempt <? 2 then
             logger LOG_WARNING
               ("Retrying database operation (" +:+ pretty (attempt + 1)
                +:+ "/3): " +:+ e)
           else
             logger LOG_ERROR
               ("Database operation failed after 3 attempts: " +:+ e)) ;;
          with_retries_loop func rest (Some e)
      | RaisedOther e => ret (RaisedOther e)
      end
  end.

(** [with_retries(func)] *)
Definition with_retries {A} (func : M (outcome A)) : M (outcome A) :=
  with_retries_loop func [0; 1; 2] None.


(** ** Scenarios *)

(** Failed attempts on [username], one at each of the given instants. *)
Fixpoint failed_logins `{TimeZone} (username : string)
    (times : list timestamp) : M unit :=
  match times with
  | [] => ret tt
  | t :: later =>
      update_login_attempts t username false ;;
      failed_logins username later
  end.

(** ** The remaining operations of [auth.py] *)

(** [o is None] and [o is False] *)
Definition is_None (o : pyobj) : bool :=
  match o with
  | PyNone => true
  | _ => false
  end.

Definition is_False (o : pyobj) : bool :=
  match o with
  | PyBool false => true
  | _ => false
  end.

(** [o == s] for a string [s] *)
Definition eq_str (o : pyobj) (s : string) : bool :=
  match o with
  | PyStr s' => String.eqb s' s
  | _ => false
  end.

Definition with_password_change_required (required : bool) (e : employee)
    : employee :=
  {| emp_id := emp_id e;
     emp_first_name := emp_first_name e;
     emp_last_name := emp_last_name e;
     emp_user_role := emp_user_role e;
     emp_password := emp_password e;
     emp_password_change_required := required;
     emp_is_approved := emp_is_approved e;
     emp_last_password_change := emp_last_password_change e |}.

Definition with_user_role (user_role : string) (e : employee) : employee :=
  {| emp_id := emp_id e;
     emp_first_name := emp_first_name e;
     emp_last_name := emp_last_name e;
     emp_user_role := user_role;
     emp_password := emp_password e;
     emp_password_change_required := emp_password_change_required e;
     emp_is_approved := emp_is_approved e;
     emp_last_password_change := emp_last_password_change e |}.

Definition with_is_approved (approved : bool) (e : employee) : employee :=
  {| emp_id := emp_id e;
     emp_first_name := emp_first_name e;
     emp_last_name := emp_last_name e;
     emp_user_role := emp_user_role e;
     emp_password := emp_password e;
     emp_password_change_required := emp_password_change_required e;
     emp_is_approved := approved;
     emp_last_password_change := emp_last_password_change e |}.

(** [UPDATE employees SET col = ? WHERE username = ?], the new row being
    [change] of the old one. *)
Definition update_employee_row (change : employee -> employee)
    (username : string) : statement unit :=
  fun d =>
    ([], {| employees := alter change username (employees d);
            login_attempts := login_attempts d;
            password_history := password_history d |}).

(** The [id] that [INTEGER PRIMARY KEY AUTOINCREMENT] gives a new row of
    [employees]: one more than the largest in the table, from which the
    application deletes no row. *)
Definition next_employee_id (d : database) : Z :=
  1 + map_fold (fun _ e largest => Z.max (emp_id e) largest) 0 (employees d).

(** [INSERT INTO employees (username, ...) VALUES (?, ...)] for a username
    that is not in the table; [row] is the new row, given its [id]. *)
Definition insert_employee (username : string) (row : Z -> employee)
    : statement unit :=
  fun d =>
    ([], {| employees := <[username := row (next_employee_id d)]> (employees d);
            login_attempts := login_attempts d;
            password_history := password_history d |}).

(** [execute_query] of that [INSERT]: on a username that is in the table
    the statement breaks [username TEXT NOT NULL UNIQUE] and raises
    [sqlite3.IntegrityError], which [execute_query] handles like every
    [sqlite3.Error]. *)
Definition execute_insert_employee (username : string) (row : Z -> employee)
    : M (query_result unit) :=
  fun w =>
    match faults w with
    | Some _ :: _ =>
        DatabaseManager.execute_query (insert_employee username row)
          false true w
    | rest =>
        match employees (db w) !! username with
        | Some _ =>
            DatabaseManager.execute_query (insert_employee username row)
              false true
              {| db := db w;
                 faults :=
                   Some (SqliteFault
                           "UNIQUE constraint failed: employees.username")
                   :: tail rest;
                 log := log w |}
        | None =>
            DatabaseManager.execute_query (insert_employee username row)
              false true w
        end
    end.

(** [update_password_change_requirement(username, required, admin_user)] *)
Definition update_password_change_requirement (username : string)
    (required admin_user : pyobj) : M (pyresult (bool * string)) :=
  let user_updating_own_flag := is_None admin_user && is_False required in
  let update : M (pyresult (bool * string)) :=
    DatabaseManager.execute_query
      (update_employee_row (with_password_change_required (truthy required))
         username) false true ;;
    result <- DatabaseManager.execute_query
                (select_employee (fun _ e => emp_password_change_required e)
                   username) true true ;;
    match result with
    | QRows (flag :: _) =>
        if Bool.eqb flag (truthy required) then
          ret (Return (true,
                       "Password change requirement updated successfully"))
        else
          ret (Return (false, "Failed to update password change requirement"))
    | _ => ret (Return (false, "Failed to update password change requirement"))
    end in
  let refuse : M (pyresult (bool * string)) :=
    ret (Return (false,
                 "Only administrators can set password change requirements")) in
  if user_updating_own_flag then update
  else if negb (truthy admin_user) then refuse
  else
    match check_user_permission admin_user (PyStr "admin") with
    | Raise e => ret (Raise e)
    | Return allowed => if negb allowed then refuse else update
    end.

(** [authorize_user(username, user_role)] *)
Definition authorize_user (username user_role : string) : M bool :=
  DatabaseManager.execute_query
    (update_employee_row (with_user_role user_role) username) false true ;;
  ret true.

(** [approve_user(username, admin_user)] *)
Definition approve_user (username : string) (admin_user : pyobj)
    : M (pyresult (bool * string)) :=
  let approve : M (pyresult (bool * string)) :=
    DatabaseManager.execute_query
      (update_employee_row (with_is_approved true) username) false true ;;
    result <- DatabaseManager.execute_query
                (select_employee (fun _ e => emp_is_approved e) username)
                true true ;;
    match result with
    | QRows (true :: _) =>
        ret (Return (true, "User " +:+ username +:+ " has been approved"))
    | _ => ret (Return (false, "Failed to approve user " +:+ username))
    end in
  let refuse : M (pyresult (bool * string)) :=
    ret (Return (false,
                 "Only administrators can approve user registrations")) in
  if negb (truthy admin_user) then refuse
  else
    match check_user_permission admin_user (PyStr "admin") with
    | Raise e => ret (Raise e)
    | Return true => approve
    | Return false =>
        match admin_user with
        | PyDict entries =>
            if eq_str (dict_get entries "role" PyNone) "corrections_supervisor"
            then approve else refuse
        | _ => ret (Raise AttributeError)
        end
    end.

Section Registration.
Context `{Bcrypt}.

(** [register_user(username, password, first_name, last_name)]; [salt] is
    the salt drawn by [hash_password]. *)
Definition register_user (salt : string)
    (username password first_name last_name : string) : M (bool * string) :=
  result <- DatabaseManager.execute_query
              (select_employee (fun u _ => u) username) true true ;;
  match result with
  | QRows (_ :: _) =>
      ret (false,
           "Username already exists. Please choose a different username.")
  | _ =>
      let '(is_valid, message) := validate_password_strength password in
      if negb is_valid then ret (false, message)
      else
        let hashed_password := hash_password salt password in
        execute_insert_employee username
          (fun id =>
             {| emp_id := id;
                emp_first_name := first_name;
                emp_last_name := last_name;
                emp_user_role := "employee";
                emp_password := hashed_password;
                emp_password_change_required := false;
                emp_is_approved := false;
                emp_last_password_change := None |}) ;;
        result <- DatabaseManager.execute_query
                    (select_employee (fun u _ => u) username) true true ;;
        match result with
        | QRows (_ :: _) =>
            ret (true,
                 "Registration successful! Please wait for admin approval to login.")
        | _ => ret (false, "Failed to register user")
        end
  end.

(** [add_employee(first_name, last_name, position, email, phone, username,
    password, user_role)] of [models.py].  The columns [position], [email]
    and [phone] are written and read by no operation of the model. *)
Definition add_employee (salt : string)
    (first_name last_name position email phone username password
       user_role : string) : M (bool * string) :=
  result <- DatabaseManager.execute_query
              (select_employee (fun u _ => u) username) true true ;;
  match result with
  | QRows (_ :: _) =>
      ret (false,
           "Username already exists. Please choose a different username.")
  | _ =>
      let '(is_valid, message) := validate_password_strength password in
      if negb is_valid then ret (false, message)
      else
        success <- execute_insert_employee username
          (fun id =>
             {| emp_id := id;
                emp_first_name := first_name;
                emp_last_name := last_name;
                emp_user_role := user_role;
                emp_password := hash_password salt password;
                emp_password_change_required := true;
                emp_is_approved := true;
                emp_last_password_change := None |}) ;;
        match success with
        | QTrue =>
            ret (true,
                 "Employee " +:+ first_name +:+ " " +:+ last_name
                 +:+ " added successfully as " +:+ user_role
                 +:+ "! They will be required to change their password on first login.")
        | _ => ret (false, "Failed to add employee to database")
        end
  end.
End Registration.

(** ** [safe_execute] of [db_manager.py] and the decorators around it *)

(** What [safe_execute] returns: [cursor.fetchone()], [cursor.fetchall()]
    or [None]. *)
Inductive fetched (R : Type) : Type :=
  | FetchedOne (row : option R)
  | FetchedAll (rows : list R)
  | FetchedNone.
Arguments FetchedOne {R} row.
Arguments FetchedAll {R} rows.
Arguments FetchedNone {R}.

(** [DatabaseManager.get_connection()]: [true] for a connection, [false]
    for the [None] it returns after logging a [sqlite3.Error]. *)
Definition get_connection : M bool :=
  fun w =>
    match faults w with
    | Some (ConnectionFault e) :: rest =>
        (false,
         {| db := db w; faults := rest;
            log := log w ++ [(LOG_ERROR, "Database connection error: " +:+ e)] |})
    | _ => (true, w)
    end.

(** The body of [safe_execute], a [with db_transaction(conn) as cursor]
    block: [conn.cursor()] on [None] raises [AttributeError] before the
    transaction starts; a statement that raises is rolled back, logged
    and raised again as [DatabaseError]; otherwise the transaction is
    committed and the rows are returned in the shape asked for. *)
Definition safe_execute_body {R} (conn : bool) (query : statement R)
    (fetch fetch_one : bool) : M (outcome (fetched R)) :=
  fun w =>
    if negb conn then (RaisedOther AttributeError, w)
    else
      match faults w with
      | Some f :: rest =>
          (RaisedDatabaseError
             ("Database operation failed: " +:+ fault_message f),
           {| db := db w; faults := rest;
              log := log w ++ [(LOG_ERROR,
                                "Database transaction failed: "
                                +:+ fault_message f)] |})
      | rest =>
          let (rows, db') := query (db w) in
          (Returned (if fetch_one then FetchedOne (head rows)
                     else if fetch then FetchedAll rows
                     else FetchedNone),
           {| db := db'; faults := tail rest; log := log w |})
      end.

(** [with_connection(func)]; [name] is [func.__name__]. *)
Definition with_connection {A} (name : string) (func : bool -> M (outcome A))
    : M (outcome A) :=
  conn <- get_connection ;;
  r <- func conn ;;
  match r with
  | RaisedSqliteError e =>
      logger LOG_ERROR
        ("Database connection error in " +:+ name +:+ ": " +:+ e) ;;
      ret (RaisedDatabaseError ("Database connection error: " +:+ e))
  | _ => ret r
  end.

(** [safe_execute(query, params, fetch, fetch_one)] *)
Definition safe_execute {R} (query : statement R) (fetch fetch_one : bool)
    : M (outcome (fetched R)) :=
  with_retries
    (with_connection "safe_execute"
       (fun conn => safe_execute_body conn query fetch fetch_one)).

(** ** [SimpleBackupManager.clean_old_backups] of [simple_backup.py] *)

(** A file matched by the glob, with its modification time. *)
Record backup_file : Type := BackupFile {
  bf_path : string;
  bf_mtime : Z
}.

(** [backup_files.sort(key=lambda x: x.stat().st_mtime)]: oldest first,
    files of equal time in the order they had. *)
Fixpoint insert_by_mtime (f : backup_file) (sorted : list backup_file)
    : list backup_file :=
  match sorted with
  | [] => [f]
  | g :: rest =>
      if bf_mtime f <=? bf_mtime g then f :: g :: rest
      else g :: insert_by_mtime f rest
  end.

Definition sort_by_mtime (backup_files : list backup_file)
    : list backup_file :=
  foldr insert_by_mtime [] backup_files.

(** The bound of the slice [l[:-n]]: Python counts a negative stop from
    the end and clips it to the list; [-0] is [0]. *)
Definition slice_stop {A} (n : Z) (l : list A) : nat :=
  let stop := - n in
  let size := Z.of_nat (length l) in
  Z.to_nat (if stop <? 0 then Z.max 0 (size + stop) else Z.min stop size).

(** The files [clean_old_backups] removes, in the order it removes them,
    for a directory holding [backup_files]; every [os.remove] is taken to
    succeed. *)
Definition clean_old_backups (max_backups : Z)
    (backup_files : list backup_file) : list backup_file :=
  let backup_files := sort_by_mtime backup_files in
  if max_backups <? Z.of_nat (length backup_files) then
    take (slice_stop max_backups backup_files) backup_files
  else [].

(** The files left in the directory, oldest first. *)
Definition backups_kept (max_backups : Z) (backup_files : list backup_file)
    : list backup_file :=
  drop (length (clean_old_backups max_backups backup_files))
    (sort_by_mtime backup_files).

(** ** Concrete inputs *)

(** The first [n] characters of [s], filled up with dots. *)
Fixpoint pad_to (n : nat) (s : string) : string :=
  match n with
  | O => ""
  | S n' =>
      match s with
      | EmptyString => String "." (pad_to n' "")
      | String c rest => String c (pad_to n' rest)
      end
  end.

Lemma pad_to_length (n : nat) (s : string) : String.length (pad_to n s) = n.
Proof.
  revert s. induction n as [|n IH]; intros s; [reflexivity|].
  destruct s; simpl; rewrite IH; reflexivity.
Qed.

(** An instance of the bcrypt interface on which the operations can be
    run: the digest is read off the password and the salt.  It stands in
    for the library where a statement is evaluated on an example, and
    nowhere else. *)
Definition sample_bcrypt : Bcrypt :=
  {| bcrypt_digest salt password_bytes := pad_to 31 (password_bytes +:+ salt);
     bcrypt_digest_length salt password_bytes :=
       pad_to_length 31 (password_bytes +:+ salt) |}.

(** The time zone of a machine on UTC, and that of a machine five hours
    behind UTC: its clock reads 20:00 when the UTC clock reads 01:00 of
    the next day. *)
Definition utc_zone : TimeZone := {| utc_of_local t := t |}.
Definition five_hours_behind_utc : TimeZone :=
  {| utc_of_local t := t + 5 * 3600 * 1000000 |}.

(** [h] hours and [m] minutes after the midnight of the time line. *)
Definition at_clock (h m : Z) : timestamp := (h * 60 + m) * 60 * 1000000.

(** Two salts as [bcrypt.gensalt(rounds=12)] returns them. *)
Definition sample_salt : string := "$2b$12$abcdefghijklmnopqrstuv".
Definition other_salt : string := "$2b$12$ABCDEFGHIJKLMNOPQRSTUV".

(** An approved employee whose password is [Str0ng!Pw]. *)
Definition jdoe : employee :=
  {| emp_id := 7;
     emp_first_name := "John";
     emp_last_name := "Doe";
     emp_user_role := "employee";
     emp_password := @hash_password sample_bcrypt sample_salt "Str0ng!Pw";
     emp_password_change_required := false;
     emp_is_approved := true;
     emp_last_password_change := Some 0 |}.

(** The same employee right after registration, not yet approved. *)
Definition jdoe_pending : employee :=
  {| emp_id := 7;
     emp_first_name := "John";
     emp_last_name := "Doe";
     emp_user_role := "employee";
     emp_password := @hash_password sample_bcrypt sample_salt "Str0ng!Pw";
     emp_password_change_required := false;
     emp_is_approved := false;
     emp_last_password_change := None |}.

Definition world_of (d : database) : world :=
  {| db := d; faults := []; log := [] |}.

Definition sample_world : world :=
  world_of {| employees := {[ "jdoe" := jdoe ]};
              login_attempts := ∅;
              password_history := [] |}.

Definition pending_world : world :=
  world_of {| employees := {[ "jdoe" := jdoe_pending ]};
              login_attempts := ∅;
              password_history := [] |}.


(** An employee's history holding twice the password [Str0ng!Pw], hashed
    with [sample_salt], and a store in which every statement goes
    through. *)
Definition history_world : world :=
  world_of {| employees := {[ "jdoe" := jdoe ]};
              login_attempts := ∅;
              password_history :=
                [HistoryRow 7 (@hash_password sample_bcrypt sample_salt
                                 "Str0ng!Pw") 100;
                 HistoryRow 7 (@hash_password sample_bcrypt sample_salt
                                 "Str0ng!Pw") 200;
                 HistoryRow 8 (@hash_password sample_bcrypt sample_salt
                                 "0ther!Pw") 300] |}.

(** A store that is locked for the coming call, or for the three coming
    calls, and answers the one after. *)
Definition locked_once : world :=
  {| db := db sample_world;
     faults := [Some (SqliteFault "database is locked"); None];
     log := [] |}.

Definition locked_three_times : world :=
  {| db := db sample_world;
     faults := [Some (SqliteFault "database is locked");
                Some (SqliteFault "database is locked");
                Some (SqliteFault "database is locked");
                None];
     log := [] |}.

(** * Properties *)

(** ** The executor on a store without faults *)

Lemma world_eta (w : world) :
  faults w = [] -> w = {| db := db w; faults := []; log := log w |}.
Proof. destruct w; simpl; intros ->; reflexivity. Qed.

Lemma execute_query_ok {R} (query : statement R) (fetch commit : bool)
    (w : world) :
  faults w = [] ->
  DatabaseManager.execute_query query fetch commit w
  = (if fetch then QRows (fst (query (db w))) else QTrue,
     {| db := if commit then snd (query (db w)) else db w;
        faults := []; log := log w |}).
Proof.
  intros Hf. unfold DatabaseManager.execute_query. rewrite Hf.
  destruct (query (db w)); reflexivity.
Qed.

Section LoginAttempts.
Context `{TimeZone}.

(** The row of [login_attempts] that the read path sees at [now]. *)
Definition visible_attempts (now : timestamp) (username : string)
    (d : database) : Z * option timestamp :=
  match login_attempts d !! username with
  | Some r =>
      match lockout_until r with
      | Some t =>
          if after_current_timestamp now t
          then (failed_attempts r, Some t)
          else (0, None)
      | None => (failed_attempts r, None)
      end
  | None => (0, None)
  end.

Lemma get_failed_login_count_ok (now : timestamp) (username : string)
    (w : world) :
  faults w = [] ->
  get_failed_login_count now username w
  = (visible_attempts now username (db w), w).
Proof.
  intros Hf. destruct w as [d fs l]. simpl in Hf. subst fs.
  unfold get_failed_login_count, bind.
  rewrite execute_query_ok by reflexivity.
  unfold visible_attempts, select_login_attempts, ret. simpl.
  destruct (login_attempts d !! username) as [[n [t|]]|]; simpl;
    try destruct (after_current_timestamp now t); reflexivity.
Qed.

Lemma check_rate_limit_ok (now : timestamp) (username : string) (w : world) :
  faults w = [] ->
  check_rate_limit now username w
  = (match visible_attempts now username (db w) with
     | (attempts, Some t) =>
         if (_MAX_ATTEMPTS <=? attempts) && (now <? t) then
           (false,
            Some ("Account locked. Try again in "
                  +:+ pretty (int_of_quotient (t - now) 60000000)
                  +:+ " minutes"))
         else (true, None)
     | (_, None) => (true, None)
     end, w).
Proof.
  intros Hf. unfold check_rate_limit, bind.
  rewrite get_failed_login_count_ok by assumption.
  destruct (visible_attempts now username (db w)) as [n [t|]]; [|reflexivity].
  destruct (_MAX_ATTEMPTS <=? n), (now <? t); reflexivity.
Qed.

Lemma update_login_attempts_failure (now : timestamp) (username : string)
    (w : world) :
  faults w = [] ->
  update_login_attempts now username false w
  = (tt,
     {| db :=
          {| employees := employees (db w);
             login_attempts :=
               <[username :=
                   let attempts :=
                     fst (visible_attempts now username (db w)) + 1 in
                   LoginAttempt attempts
                     (if _MAX_ATTEMPTS <=? attempts
                      then Some (now + timedelta_minutes _LOCKOUT_MINUTES)
                      else None)]>
                 (login_attempts (db w));
             password_history := password_history (db w) |};
        faults := []; log := log w |}).
Proof.
  intros Hf. unfold update_login_attempts, bind.
  rewrite get_failed_login_count_ok by assumption.
  rewrite execute_query_ok by assumption. reflexivity.
Qed.

Lemma update_login_attempts_success (now : timestamp) (username : string)
    (w : world) :
  faults w = [] ->
  update_login_attempts now username true w
  = (tt,
     {| db :=
          {| employees := employees (db w);
             login_attempts := delete username (login_attempts (db w));
             password_history := password_history (db w) |};
        faults := []; log := log w |}).
Proof.
  intros Hf. unfold update_login_attempts, bind.
  rewrite execute_query_ok by assumption. reflexivity.
Qed.

(** ** The lockout state machine *)

Lemma after_failure_lookup (now : timestamp) (username : string) (w : world) :
  faults w = [] ->
  let w' := after (update_login_attempts now username false) w in
  faults w' = []
  /\ employees (db w') = employees (db w)
  /\ login_attempts (db w') !! username
     = Some (let attempts := fst (visible_attempts now username (db w)) + 1 in
             LoginAttempt attempts
               (if _MAX_ATTEMPTS <=? attempts
                then Some (now + timedelta_minutes _LOCKOUT_MINUTES)
                else None)).
Proof.
  intros Hf. unfold after.
  rewrite update_login_attempts_failure by assumption. simpl.
  repeat split. apply lookup_insert_eq.
Qed.

Lemma visible_unlocked (now : timestamp) (username : string) (d : database)
    (n : Z) :
  login_attempts d !! username = Some (LoginAttempt n None) ->
  visible_attempts now username d = (n, None).
Proof. intros Hr. unfold visible_attempts. rewrite Hr. reflexivity. Qed.

(** While the count stays below the maximum, failures only count up. *)
Lemma failed_logins_count (username : string) (times : list timestamp) :
  forall (w : world) (n : Z),
    faults w = [] ->
    login_attempts (db w) !! username = Some (LoginAttempt n None) ->
    n + Z.of_nat (length times) < _MAX_ATTEMPTS ->
    let w' := after (failed_logins username times) w in
    faults w' = []
    /\ employees (db w') = employees (db w)
    /\ login_attempts (db w') !! username
       = Some (LoginAttempt (n + Z.of_nat (length times)) None).
Proof.
  induction times as [|t later IH]; intros w n Hf Hr Hlt.
  - simpl. rewrite Z.add_0_r. auto.
  - cbn [failed_logins]. unfold after, bind.
    destruct (update_login_attempts t username false w) as [[] w1] eqn:E1.
    pose proof (after_failure_lookup t username w Hf) as (Hf1 & He1 & Hr1).
    unfold after in Hf1, He1, Hr1. rewrite E1 in Hf1, He1, Hr1. simpl in *.
    rewrite (visible_unlocked t username (db w) n Hr) in Hr1. simpl in Hr1.
    assert (Hn : (_MAX_ATTEMPTS <=? n + 1) = false).
    { apply Z.leb_gt. unfold _MAX_ATTEMPTS in *. lia. }
    rewrite Hn in Hr1.
    destruct (IH w1 (n + 1) Hf1 Hr1) as (Hf2 & He2 & Hr2).
    { unfold _MAX_ATTEMPTS in *. lia. }
    unfold after in Hf2, He2, Hr2.
    repeat split; [assumption | congruence |].
    rewrite Hr2. do 2 f_equal. lia.
Qed.

Lemma failed_logins_app (username : string) (l1 l2 : list timestamp)
    (w : world) :
  after (failed_logins username (l1 ++ l2)) w
  = after (failed_logins username l2) (after (failed_logins username l1) w).
Proof.
  revert w. induction l1 as [|t l1 IH]; intros w; [reflexivity|].
  cbn [app failed_logins]. unfold after, bind in *.
  destruct (update_login_attempts t username false w) as [[] w1].
  apply IH.
Qed.

(** After the first failure of a fresh sequence the record counts one. *)
Lemma first_failure (t1 : timestamp) (username : string) (w : world) :
  faults w = [] ->
  result (get_failed_login_count t1 username) w = (0, None) ->
  let w1 := after (update_login_attempts t1 username false) w in
  faults w1 = []
  /\ employees (db w1) = employees (db w)
  /\ login_attempts (db w1) !! username = Some (LoginAttempt 1 None).
Proof.
  intros Hf Hfresh.
  unfold result in Hfresh.
  rewrite get_failed_login_count_ok in Hfresh by assumption. simpl in Hfresh.
  pose proof (after_failure_lookup t1 username w Hf) as (Hf1 & He1 & Hr1).
  rewrite Hfresh in Hr1. auto.
Qed.

Lemma failures_from_fresh (username : string) (t1 : timestamp)
    (later : list timestamp) (w : world) :
  faults w = [] ->
  result (get_failed_login_count t1 username) w = (0, None) ->
  (length later < 4)%nat ->
  let w' := after (failed_logins username (t1 :: later)) w in
  faults w' = []
  /\ employees (db w') = employees (db w)
  /\ login_attempts (db w') !! username
     = Some (LoginAttempt (1 + Z.of_nat (length later)) None).
Proof.
  intros Hf Hfresh Hlen.
  destruct (first_failure t1 username w Hf Hfresh) as (Hf1 & He1 & Hr1).
  change (t1 :: later) with ([t1] ++ later).
  rewrite failed_logins_app.
  assert (Hone : after (failed_logins username [t1]) w
                 = after (update_login_attempts t1 username false) w).
  { cbn [failed_logins]. unfold after, bind, ret.
    destruct (update_login_attempts t1 username false w) as [[] w1].
    reflexivity. }
  rewrite Hone.
  destruct (failed_logins_count username later _ 1 Hf1 Hr1) as (Hf2 & He2 & Hr2).
  { unfold _MAX_ATTEMPTS. lia. }
  repeat split; [assumption | congruence | assumption].
Qed.

Lemma quot_minutes_floor (remaining : Z) :
  0 <= remaining ->
  int_of_quotient remaining 60000000 = remaining `div` 60000000.
Proof. intros Hpos. unfold int_of_quotient. apply Z.quot_div_nonneg; lia. Qed.

End LoginAttempts.

(** ** Authentication on a store without faults *)

Section AuthenticationFacts.
Context `{Bcrypt} `{TimeZone}.

Lemma authenticate_user_ok (now : timestamp) (username password : string)
    (w : world) :
  faults w = [] ->
  authenticate_user now username password w
  = match result (check_rate_limit now username) w with
    | (false, error_msg) => ((None, error_msg), w)
    | (true, _) =>
        match employees (db w) !! username with
        | None =>
            ((None, Some "Invalid username or password"),
             after (update_login_attempts now username false) w)
        | Some e =>
            if negb (emp_is_approved e) then
              ((None, Some "Your account is pending admin approval"), w)
            else if negb (verify_password password (emp_password e)) then
              ((None, Some "Invalid username or password"),
               after (update_login_attempts now username false) w)
            else
              ((Some (user_dict (user_columns username e)), None),
               after (update_login_attempts now username true) w)
        end
    end.
Proof.
  intros Hf. destruct w as [d fs l]. simpl in Hf. subst fs.
  unfold authenticate_user, bind, result, after.
  rewrite check_rate_limit_ok by reflexivity. cbn [fst snd].
  assert (Hgo :
    (let (a, w') :=
       DatabaseManager.execute_query
         (select_employee user_columns username) true true
         {| db := d; faults := []; log := l |} in
     match a with
     | QRows (user :: _) =>
         if negb (row_is_approved user) then
           ret (None, Some "Your account is pending admin approval")
         else if negb (verify_password password (row_password user)) then
           (update_login_attempts now username false ;;
            ret (None, Some "Invalid username or password"))
         else
           (update_login_attempts now username true ;;
            ret (Some (user_dict user), None))
     | _ =>
         (update_login_attempts now username false ;;
          ret (None, Some "Invalid username or password"))
     end w')
    = match employees d !! username with
      | None =>
          ((None, Some "Invalid username or password"),
           snd (update_login_attempts now username false
                  {| db := d; faults := []; log := l |}))
      | Some e =>
          if negb (emp_is_approved e) then
            ((None, Some "Your account is pending admin approval"),
             {| db := d; faults := []; log := l |})
          else if negb (verify_password password (emp_password e)) then
            ((None, Some "Invalid username or password"),
             snd (update_login_attempts now username false
                    {| db := d; faults := []; log := l |}))
          else
            ((Some (user_dict (user_columns username e)), None),
             snd (update_login_attempts now username true
                    {| db := d; faults := []; log := l |}))
      end).
  { rewrite execute_query_ok by reflexivity.
    unfold select_employee, bind, ret. cbn [fst snd db log].
    destruct (employees d !! username) as [e|]; cbn [fst snd].
    - cbn [user_columns row_is_approved row_password].
      destruct (emp_is_approved e); cbn [negb]; [|reflexivity].
      destruct (verify_password password (emp_password e)); cbn [negb].
      + destruct (update_login_attempts now username true _) as [[] w1].
        reflexivity.
      + destruct (update_login_attempts now username false _) as [[] w1].
        reflexivity.
    - destruct (update_login_attempts now username false _) as [[] w1].
      reflexivity. }
  cbn [db].
  destruct (visible_attempts now username d) as [n [t|]];
    [destruct (_MAX_ATTEMPTS <=? n), (now <? t)|]; cbn [andb negb];
    first [exact Hgo | reflexivity].
Qed.
End AuthenticationFacts.

Section LockoutStateMachine.
Context `{Bcrypt} `{TimeZone}.

(** C2.  The lockout state machine, as the code runs it.  From a username
    for which the read path sees no record, each of the first four
    consecutive failed attempts leaves [check_rate_limit] allowing the
    next one, and the fifth writes a record of five failures locked until
    fifteen minutes after it.  While that instant is ahead,
    [check_rate_limit] answers [False] with the remaining minutes rounded
    down as long as the UTC date is not after the local date of
    [lockout_until]; once the UTC date is after it the read path drops the
    record and [check_rate_limit] answers [(True, None)], whether the
    lockout has run out or not.  A lockout that has run out on a date the
    UTC clock has not passed is still read: the attempt is allowed, and
    one more failure counts on from five and locks the username again at
    once.  A successful authentication deletes the record, after which the
    failure count reads zero. *)
Theorem lockout_state_machine (w : world) (username : string)
    (t1 : timestamp) (later : list timestamp) (t5 : timestamp) :
  faults w = [] ->
  result (get_failed_login_count t1 username) w = (0, None) ->
  length later = 3%nat ->
  let w5 := after (failed_logins username (t1 :: later ++ [t5])) w in
  let until := t5 + timedelta_minutes 15 in
  (forall (k : nat) (now : timestamp),
      (1 <= k <= 4)%nat ->
      result (check_rate_limit now username)
        (after (failed_logins username (take k (t1 :: later))) w)
      = (true, None))
  /\ login_attempts (db w5) !! username = Some (LoginAttempt 5 (Some until))
  /\ (forall now : timestamp,
         now < until ->
         date_of (utc_of_local now) <= date_of until ->
         result (check_rate_limit now username) w5
         = (false,
            Some ("Account locked. Try again in "
                  +:+ pretty ((until - now) `div` 60000000)
                  +:+ " minutes")))
  /\ (forall now : timestamp,
         date_of until < date_of (utc_of_local now) ->
         result (get_failed_login_count now username) w5 = (0, None)
         /\ result (check_rate_limit now username) w5 = (true, None))
  /\ (forall now : timestamp,
         until <= now ->
         date_of (utc_of_local now) <= date_of until ->
         result (check_rate_limit now username) w5 = (true, None)
         /\ login_attempts
              (db (after (update_login_attempts now username false) w5))
              !! username
            = Some (LoginAttempt 6 (Some (now + timedelta_minutes 15))))
  /\ (forall (w0 : world) (now : timestamp),
         faults w0 = [] ->
         let w' := after (update_login_attempts now username true) w0 in
         login_attempts (db w') !! username = None
         /\ forall t : timestamp,
              result (get_failed_login_count t username) w' = (0, None))
  /\ (forall (w0 : world) (now : timestamp) (password : string)
             (user : pyobj),
         faults w0 = [] ->
         fst (result (authenticate_user now username password) w0)
         = Some user ->
         let w' := after (authenticate_user now username password) w0 in
         login_attempts (db w') !! username = None
         /\ forall t : timestamp,
              result (get_failed_login_count t username) w' = (0, None)).
Proof.
  intros Hf Hfresh Hlen w5 until.
  assert (Hdeleted : forall (w0 : world) (now : timestamp),
    faults w0 = [] ->
    let w' := after (update_login_attempts now username true) w0 in
    login_attempts (db w') !! username = None
    /\ forall t : timestamp,
         result (get_failed_login_count t username) w' = (0, None)).
  { intros w0 now Hf0 w'. subst w'. unfold after, result.
    rewrite update_login_attempts_success by assumption. cbn [snd db].
    split; [apply lookup_delete_eq|].
    intros t. rewrite get_failed_login_count_ok by reflexivity.
    unfold visible_attempts. cbn [fst db login_attempts].
    rewrite lookup_delete_eq. reflexivity. }
  assert (Hw5 : faults w5 = [] /\
            login_attempts (db w5) !! username
            = Some (LoginAttempt 5 (Some until))).
  { subst w5. change (t1 :: later ++ [t5]) with ((t1 :: later) ++ [t5]).
    rewrite failed_logins_app.
    destruct (failures_from_fresh username t1 later w Hf Hfresh)
      as (Hf4 & _ & Hr4); [lia|].
    rewrite Hlen in Hr4.
    set (w4 := after (failed_logins username (t1 :: later)) w) in *.
    assert (Hone : after (failed_logins username [t5]) w4
                   = after (update_login_attempts t5 username false) w4).
    { cbn [failed_logins]. unfold after, bind, ret.
      destruct (update_login_attempts t5 username false w4) as [[] w'].
      reflexivity. }
    rewrite Hone.
    destruct (after_failure_lookup t5 username w4 Hf4) as (Hf5 & _ & Hr5).
    rewrite (visible_unlocked _ _ _ _ Hr4) in Hr5. split; assumption. }
  destruct Hw5 as [Hf5 Hr5]. clearbody w5.
  split; [|split; [|split; [|split; [|split; [|split]]]]].
  - intros k now Hk.
    destruct k as [|k]; [lia|]. cbn [take].
    destruct (failures_from_fresh username t1 (take k later) w Hf Hfresh)
      as (Hfk & _ & Hrk).
    { rewrite length_take. lia. }
    unfold result. rewrite check_rate_limit_ok by assumption.
    rewrite (visible_unlocked _ _ _ _ Hrk). reflexivity.
  - exact Hr5.
  - intros now Hnow Hdate.
    unfold result. rewrite check_rate_limit_ok by assumption.
    assert (Hlt : (now <? until) = true) by (apply Z.ltb_lt; assumption).
    assert (Hvis : after_current_timestamp now until = true)
      by (apply Z.leb_le; assumption).
    unfold visible_attempts. rewrite Hr5.
    cbn [lockout_until failed_attempts]. rewrite Hvis.
    change (_MAX_ATTEMPTS <=? 5) with true. rewrite Hlt. cbn [andb fst].
    rewrite quot_minutes_floor by lia. reflexivity.
  - intros now Hdate.
    assert (Hvis : after_current_timestamp now until = false)
      by (apply Z.leb_gt; assumption).
    unfold result.
    rewrite check_rate_limit_ok, get_failed_login_count_ok by assumption.
    unfold visible_attempts. rewrite Hr5.
    cbn [lockout_until failed_attempts]. rewrite Hvis. split; reflexivity.
  - intros now Hnow Hdate.
    assert (Hlt : (now <? until) = false) by (apply Z.ltb_ge; assumption).
    assert (Hvis : after_current_timestamp now until = true)
      by (apply Z.leb_le; assumption).
    assert (Hseen : visible_attempts now username (db w5) = (5, Some until)).
    { unfold visible_attempts. rewrite Hr5.
      cbn [lockout_until failed_attempts]. rewrite Hvis. reflexivity. }
    split.
    + unfold result. rewrite check_rate_limit_ok by assumption.
      rewrite Hseen, Hlt, andb_false_r. reflexivity.
    + destruct (after_failure_lookup now username w5 Hf5) as (_ & _ & Hr6).
      rewrite Hseen in Hr6. exact Hr6.
  - exact Hdeleted.
  - intros w0 now password user Hf0 Hok w'. subst w'.
    unfold result, after in *.
    rewrite authenticate_user_ok in * by assumption.
    destruct (result (check_rate_limit now username) w0) as [[] msg];
      [|discriminate].
    destruct (employees (db w0) !! username) as [e|]; [|discriminate].
    destruct (negb (emp_is_approved e)); [discriminate|].
    destruct (negb (verify_password password (emp_password e)));
      [discriminate|].
    cbn [snd]. apply (Hdeleted w0 now Hf0).
Qed.
End LockoutStateMachine.

(** ** Error messages of [authenticate_user] *)

Section ErrorMessages.
Context `{Bcrypt} `{TimeZone}.

(** C4.  When the rate limit lets the attempt through, an unknown username
    and a wrong password for an approved account get the same message,
    [Invalid username or password], and an account awaiting approval gets
    a message of its own.  A username whose record holds five failures or
    more and a lockout instant that is ahead gets the message of
    [check_rate_limit], with the remaining minutes rounded down, as long
    as the UTC date is not after the local date of that instant; when the
    UTC date is after it the lockout is not seen: a wrong password gets
    the generic message and the right password logs in.  Whatever
    [check_rate_limit] refuses is answered with its message, and the
    three messages are pairwise different. *)
Theorem authenticate_user_error_messages (w : world) (now : timestamp)
    (username password : string) :
  faults w = [] ->
  (result (check_rate_limit now username) w = (true, None) ->
     (employees (db w) !! username = None ->
        result (authenticate_user now username password) w
        = (None, Some "Invalid username or password"))
     /\ (forall e : employee,
           employees (db w) !! username = Some e ->
           emp_is_approved e = true ->
           verify_password password (emp_password e) = false ->
           result (authenticate_user now username password) w
           = (None, Some "Invalid username or password"))
     /\ (forall e : employee,
           employees (db w) !! username = Some e ->
           emp_is_approved e = false ->
           result (authenticate_user now username password) w
           = (None, Some "Your account is pending admin approval")))
  /\ (forall (r : login_attempt) (t : timestamp),
        login_attempts (db w) !! username = Some r ->
        _MAX_ATTEMPTS <= failed_attempts r ->
        lockout_until r = Some t ->
        now < t ->
        (date_of (utc_of_local now) <= date_of t ->
           result (authenticate_user now username password) w
           = (None,
              Some ("Account locked. Try again in "
                    +:+ pretty ((t - now) `div` 60000000)
                    +:+ " minutes")))
        /\ (date_of t < date_of (utc_of_local now) ->
              forall e : employee,
                employees (db w) !! username = Some e ->
                emp_is_approved e = true ->
                (verify_password password (emp_password e) = false ->
                   result (authenticate_user now username password) w
                   = (None, Some "Invalid username or password"))
                /\ (verify_password password (emp_password e) = true ->
                      result (authenticate_user now username password) w
                      = (Some (user_dict (user_columns username e)),
                         None))))
  /\ (forall error_msg : option string,
        result (check_rate_limit now username) w = (false, error_msg) ->
        result (authenticate_user now username password) w = (None, error_msg)
        /\ exists minutes : Z,
             error_msg = Some ("Account locked. Try again in "
                               +:+ pretty minutes +:+ " minutes"))
  /\ String.eqb "Your account is pending admin approval"
       "Invalid username or password" = false
  /\ (forall minutes : Z,
        String.eqb ("Account locked. Try again in "
                    +:+ pretty minutes +:+ " minutes")
          "Invalid username or password" = false
        /\ String.eqb ("Account locked. Try again in "
                       +:+ pretty minutes +:+ " minutes")
             "Your account is pending admin approval" = false).
Proof.
  intros Hf. split; [|split; [|split; [|split]]].
  - intros Hrl. unfold result in *.
    rewrite authenticate_user_ok by assumption. unfold result. rewrite Hrl.
    split; [|split].
    + intros ->. reflexivity.
    + intros e -> -> ->. reflexivity.
    + intros e -> ->. reflexivity.
  - intros r t Hr Hmax Ht Hnow.
    assert (Hge : (_MAX_ATTEMPTS <=? failed_attempts r) = true)
      by (apply Z.leb_le; assumption).
    assert (Hlt : (now <? t) = true) by (apply Z.ltb_lt; assumption).
    unfold result.
    rewrite authenticate_user_ok by assumption. unfold result.
    rewrite check_rate_limit_ok by assumption.
    unfold visible_attempts. rewrite Hr, Ht. cbn [fst].
    split.
    + intros Hdate.
      assert (Hvis : after_current_timestamp now t = true)
        by (apply Z.leb_le; assumption).
      rewrite Hvis, Hge, Hlt. cbn [andb fst].
      rewrite quot_minutes_floor by lia. reflexivity.
    + intros Hdate e He Happroved.
      assert (Hvis : after_current_timestamp now t = false)
        by (apply Z.leb_gt; assumption).
      rewrite Hvis, He, Happroved. cbn [negb fst].
      split; intros ->; reflexivity.
  - intros error_msg Hrl. unfold result in *.
    rewrite authenticate_user_ok by assumption. unfold result. rewrite Hrl.
    split; [reflexivity|].
    rewrite check_rate_limit_ok in Hrl by assumption. cbn [fst] in Hrl.
    destruct (visible_attempts now username (db w)) as [n [t|]];
      [|discriminate].
    destruct ((_MAX_ATTEMPTS <=? n) && (now <? t)); [|discriminate].
    injection Hrl as <-. eexists. reflexivity.
  - reflexivity.
  - intros minutes. split; reflexivity.
Qed.
End ErrorMessages.

Lemma lockout_state_machine_witness :
  result (@check_rate_limit utc_zone 10 "jdoe")
    (after (@failed_logins utc_zone "jdoe" [0; 1; 2; 3]) sample_world)
  = (true, None)
  /\ result (@check_rate_limit utc_zone 60000004 "jdoe")
       (after (@failed_logins utc_zone "jdoe" [0; 1; 2; 3; 4]) sample_world)
     = (false, Some "Account locked. Try again in 14 minutes")
  /\ result (@check_rate_limit five_hours_behind_utc (at_clock 20 5) "jdoe")
       (after (@failed_logins five_hours_behind_utc "jdoe"
                 [at_clock 20 0; at_clock 20 1; at_clock 20 2;
                  at_clock 20 3; at_clock 20 4]) sample_world)
     = (true, None)
  /\ login_attempts
       (db (after (@update_login_attempts utc_zone (at_clock 0 20) "jdoe"
                     false)
              (after (@failed_logins utc_zone "jdoe" [0; 1; 2; 3; 4])
                 sample_world)))
       !! "jdoe"
     = Some (LoginAttempt 6 (Some (at_clock 0 35)))
  /\ result (@get_failed_login_count utc_zone 5 "jdoe")
       (after (@authenticate_user sample_bcrypt utc_zone 5 "jdoe" "Str0ng!Pw")
          (after (@failed_logins utc_zone "jdoe" [0; 1; 2; 3]) sample_world))
     = (0, None).
Proof.
  destruct (@lockout_state_machine sample_bcrypt utc_zone sample_world "jdoe"
              0 [1; 2; 3] 4 eq_refl eq_refl eq_refl)
    as (Hallowed & _ & Hlocked & _ & Hexpired & _ & Hreset).
  destruct (@lockout_state_machine sample_bcrypt five_hours_behind_utc
              sample_world "jdoe" (at_clock 20 0)
              [at_clock 20 1; at_clock 20 2; at_clock 20 3] (at_clock 20 4)
              eq_refl eq_refl eq_refl)
    as (_ & _ & _ & Hhidden & _).
  split; [|split; [|split; [|split]]].
  - apply (Hallowed 4%nat 10). lia.
  - apply (Hlocked 60000004); reflexivity.
  - apply (Hhidden (at_clock 20 5)). reflexivity.
  - apply (Hexpired (at_clock 0 20)); [discriminate | discriminate].
  - apply (Hreset
             (after (@failed_logins utc_zone "jdoe" [0; 1; 2; 3]) sample_world)
             5 "Str0ng!Pw"
             (user_dict (user_columns "jdoe" jdoe))); reflexivity.
Defined.

Lemma authenticate_user_error_messages_witness :
  result (@authenticate_user sample_bcrypt utc_zone 0 "ghost" "Str0ng!Pw")
    sample_world
  = (None, Some "Invalid username or password")
  /\ result (@authenticate_user sample_bcrypt utc_zone 0 "jdoe" "wrong")
       sample_world
     = (None, Some "Invalid username or password")
  /\ result (@authenticate_user sample_bcrypt utc_zone 0 "jdoe" "Str0ng!Pw")
       pending_world
     = (None, Some "Your account is pending admin approval")
  /\ result (@authenticate_user sample_bcrypt utc_zone 60000004 "jdoe"
               "Str0ng!Pw")
       (after (@failed_logins utc_zone "jdoe" [0; 1; 2; 3; 4]) sample_world)
     = (None, Some "Account locked. Try again in 14 minutes")
  /\ result (@authenticate_user sample_bcrypt five_hours_behind_utc
               (at_clock 20 5) "jdoe" "wrong")
       (after (@failed_logins five_hours_behind_utc "jdoe"
                 [at_clock 20 0; at_clock 20 1; at_clock 20 2;
                  at_clock 20 3; at_clock 20 4]) sample_world)
     = (None, Some "Invalid username or password").
Proof.
  split; [|split; [|split; [|split]]].
  - destruct (@authenticate_user_error_messages sample_bcrypt utc_zone
                sample_world 0 "ghost" "Str0ng!Pw" eq_refl)
      as (Hallowed & _).
    destruct (Hallowed eq_refl) as (Hunknown & _).
    apply Hunknown. reflexivity.
  - destruct (@authenticate_user_error_messages sample_bcrypt utc_zone
                sample_world 0 "jdoe" "wrong" eq_refl) as (Hallowed & _).
    destruct (Hallowed eq_refl) as (_ & Hwrong & _).
    apply (Hwrong jdoe); reflexivity.
  - destruct (@authenticate_user_error_messages sample_bcrypt utc_zone
                pending_world 0 "jdoe" "Str0ng!Pw" eq_refl)
      as (Hallowed & _).
    destruct (Hallowed eq_refl) as (_ & _ & Hpending).
    apply (Hpending jdoe_pending); reflexivity.
  - destruct (@authenticate_user_error_messages sample_bcrypt utc_zone
                (after (@failed_logins utc_zone "jdoe" [0; 1; 2; 3; 4])
                   sample_world)
                60000004 "jdoe" "Str0ng!Pw" eq_refl)
      as (_ & Hlocked & _).
    destruct (Hlocked (LoginAttempt 5 (Some 900000004)) 900000004
                eq_refl ltac:(discriminate) eq_refl eq_refl)
      as (Hseen & _).
    apply Hseen. discriminate.
  - destruct (@authenticate_user_error_messages sample_bcrypt
                five_hours_behind_utc
                (after (@failed_logins five_hours_behind_utc "jdoe"
                          [at_clock 20 0; at_clock 20 1; at_clock 20 2;
                           at_clock 20 3; at_clock 20 4]) sample_world)
                (at_clock 20 5) "jdoe" "wrong" eq_refl)
      as (_ & Hlocked & _).
    destruct (Hlocked (LoginAttempt 5 (Some (at_clock 20 19)))
                (at_clock 20 19) eq_refl ltac:(discriminate) eq_refl
                eq_refl)
      as (_ & Hhidden).
    destruct (Hhidden eq_refl jdoe eq_refl eq_refl) as (Hwrong & _).
    apply Hwrong. reflexivity.
Defined.

(** ** Changing a password *)

Section ChangePassword.
Context `{Bcrypt} `{TimeZone}.

Lemma change_password_reset_ok (now : timestamp) (salt username : string)
    (new_password : string) (w : world) :
  faults w = [] ->
  change_password now salt username None new_password w
  = (match employees (db w) !! username with
     | Some _ => (true, "Password changed successfully")
     | None => (false, "Failed to update password")
     end,
     {| db :=
          {| employees :=
               alter (with_new_password (hash_password salt new_password))
                 username (employees (db w));
             login_attempts := login_attempts (db w);
             password_history := password_history (db w) |};
        faults := []; log := log w |}).
Proof.
  intros Hf. destruct w as [d fs l]. simpl in Hf. subst fs.
  unfold change_password, bind.
  rewrite execute_query_ok by reflexivity.
  rewrite execute_query_ok by reflexivity.
  unfold update_password, select_password_matching, ret.
  cbn [fst snd db log employees login_attempts password_history].
  rewrite lookup_alter_eq.
  destruct (employees d !! username) as [e|]; cbn [fmap option_fmap option_map];
    [|reflexivity].
  cbn [with_new_password emp_password]. rewrite String.eqb_refl. reflexivity.
Qed.

Lemma change_password_old_ok (now : timestamp) (salt username : string)
    (old_password new_password : string) (w : world) :
  faults w = [] ->
  change_password now salt username (Some old_password) new_password w
  = match fst (result (authenticate_user now username old_password) w) with
    | Some _ =>
        change_password now salt username None new_password
          (after (authenticate_user now username old_password) w)
    | None =>
        ((false, "Current password is incorrect"),
         after (authenticate_user now username old_password) w)
    end.
Proof.
  intros Hf. unfold change_password at 1, bind, result, after.
  rewrite authenticate_user_ok by assumption.
  destruct (result (check_rate_limit now username) w) as [[] msg];
    [|reflexivity].
  destruct (employees (db w) !! username) as [e|]; [|reflexivity].
  destruct (negb (emp_is_approved e)); [reflexivity|].
  destruct (negb (verify_password old_password (emp_password e)));
    reflexivity.
Qed.
End ChangePassword.

Section ChangePasswordClaims.
Context `{Bcrypt} `{TimeZone}.

(** C10.  With [old_password = None], [change_password] asks nothing of
    its caller: for every existing username, whatever the state of the
    account and of its lockout record, the new password is hashed and
    stored, the force-change flag is cleared, the answer is a success, and
    nothing else in the store changes. *)
Theorem change_password_none_resets (w : world) (now : timestamp)
    (salt username new_password : string) (e : employee) :
  faults w = [] ->
  employees (db w) !! username = Some e ->
  let w' := after (change_password now salt username None new_password) w in
  result (change_password now salt username None new_password) w
  = (true, "Password changed successfully")
  /\ employees (db w') !! username
     = Some (with_new_password (hash_password salt new_password) e)
  /\ emp_password_change_required
       (with_new_password (hash_password salt new_password) e) = false
  /\ (forall other : string,
        other <> username ->
        employees (db w') !! other = employees (db w) !! other)
  /\ login_attempts (db w') = login_attempts (db w)
  /\ password_history (db w') = password_history (db w).
Proof.
  intros Hf He w'. subst w'. unfold result, after.
  rewrite change_password_reset_ok by assumption.
  cbn [fst snd db employees login_attempts password_history].
  rewrite He. repeat split.
  - rewrite lookup_alter_eq, He. reflexivity.
  - intros other Hother. apply lookup_alter_ne. congruence.
Qed.

(** C1, as the code behaves.  [change_password] never consults
    [validate_password_strength]: a new password that fails the policy is
    hashed and stored like any other, and the answer is a success, on the
    reset path and after a verified old password alike. *)
Theorem change_password_stores_weak_password (w : world) (now : timestamp)
    (salt username new_password : string) (old_password : option string)
    (e : employee) (reason : string) :
  faults w = [] ->
  employees (db w) !! username = Some e ->
  validate_password_strength new_password = (false, reason) ->
  match old_password with
  | None => True
  | Some old =>
      result (check_rate_limit now username) w = (true, None)
      /\ emp_is_approved e = true
      /\ verify_password old (emp_password e) = true
  end ->
  let w' :=
    after (change_password now salt username old_password new_password) w in
  result (change_password now salt username old_password new_password) w
  = (true, "Password changed successfully")
  /\ employees (db w') !! username
     = Some (with_new_password (hash_password salt new_password) e).
Proof.
  intros Hf He _ Hold w'. subst w'.
  destruct old_password as [old|].
  - destruct Hold as (Hrl & Happroved & Hverify).
    unfold result, after. rewrite change_password_old_ok by assumption.
    unfold result, after. rewrite authenticate_user_ok by assumption.
    unfold result in Hrl |- *. rewrite Hrl, He, Happroved, Hverify.
    cbn [negb fst snd]. unfold after.
    rewrite update_login_attempts_success by assumption. cbn [snd].
    rewrite change_password_reset_ok by reflexivity.
    cbn [fst snd db employees]. rewrite He.
    split; [reflexivity|]. rewrite lookup_alter_eq, He. reflexivity.
  - unfold result, after. rewrite change_password_reset_ok by assumption.
    cbn [fst snd db employees]. rewrite He.
    split; [reflexivity|]. rewrite lookup_alter_eq, He. reflexivity.
Qed.
End ChangePasswordClaims.

Lemma change_password_none_resets_witness :
  result (@change_password sample_bcrypt utc_zone 0 other_salt "jdoe" None "N3w!Passw0rd")
    pending_world
  = (true, "Password changed successfully")
  /\ emp_password <$>
       employees
         (db (after (@change_password sample_bcrypt utc_zone 0 other_salt "jdoe" None
                       "N3w!Passw0rd") pending_world)) !! "jdoe"
     = Some (@hash_password sample_bcrypt other_salt "N3w!Passw0rd").
Proof.
  destruct (@change_password_none_resets sample_bcrypt utc_zone pending_world 0
              other_salt "jdoe" "N3w!Passw0rd" jdoe_pending eq_refl eq_refl)
    as (Hres & Hstored & _).
  split; [exact Hres|]. rewrite Hstored. reflexivity.
Defined.

Lemma change_password_stores_weak_password_witness :
  validate_password_strength "a"
  = (false, "Password must be at least 8 characters long")
  /\ result (@change_password sample_bcrypt utc_zone 0 other_salt "jdoe" None "a")
       sample_world
     = (true, "Password changed successfully")
  /\ result (@change_password sample_bcrypt utc_zone 0 other_salt "jdoe"
               (Some "Str0ng!Pw") "a") sample_world
     = (true, "Password changed successfully")
  /\ emp_password <$>
       employees
         (db (after (@change_password sample_bcrypt utc_zone 0 other_salt "jdoe"
                       (Some "Str0ng!Pw") "a") sample_world)) !! "jdoe"
     = Some (@hash_password sample_bcrypt other_salt "a").
Proof.
  split; [reflexivity|].
  destruct (@change_password_stores_weak_password sample_bcrypt utc_zone sample_world 0
              other_salt "jdoe" "a" None jdoe
              "Password must be at least 8 characters long"
              eq_refl eq_refl eq_refl I) as (Hreset & _).
  destruct (@change_password_stores_weak_password sample_bcrypt utc_zone sample_world 0
              other_salt "jdoe" "a" (Some "Str0ng!Pw") jdoe
              "Password must be at least 8 characters long"
              eq_refl eq_refl eq_refl
              (conj eq_refl (conj eq_refl eq_refl))) as (Hres & Hstored).
  split; [exact Hreset|]. split; [exact Hres|].
  rewrite Hstored. reflexivity.
Defined.

(** ** Password expiry policy *)

(** C5, as the code behaves.  For an existing identity
    [check_password_policy] answers [(True, reason)] exactly when the
    force-change flag is set or the last change lies more than the expiry
    window back; in every other case it reaches the end of its body and
    returns [None], not a pair whose first component is [False]. *)
Theorem check_password_policy_cases (PASSWORD_EXPIRY_DAYS : Z)
    (now : timestamp) (username : string) (e : employee) (w : world) :
  faults w = [] ->
  employees (db w) !! username = Some e ->
  let must_change :=
    emp_password_change_required e
    || match emp_last_password_change e with
       | Some last_change =>
           last_change + timedelta_days PASSWORD_EXPIRY_DAYS <? now
       | None => false
       end in
  (must_change = true ->
     exists reason : string,
       result (check_password_policy PASSWORD_EXPIRY_DAYS now username) w
       = Some (true, reason))
  /\ (must_change = false ->
        result (check_password_policy PASSWORD_EXPIRY_DAYS now username) w
        = None).
Proof.
  intros Hf He must_change. subst must_change.
  unfold result, check_password_policy, bind.
  rewrite execute_query_ok by assumption.
  unfold select_employee, ret. cbn [fst snd]. rewrite He.
  destruct (emp_password_change_required e); cbn [orb fst].
  - split; [eauto | discriminate].
  - destruct (emp_last_password_change e) as [last_change|]; cbn [fst].
    + destruct (last_change + timedelta_days PASSWORD_EXPIRY_DAYS <? now);
        cbn [fst]; split; eauto; discriminate.
    + split; [discriminate | reflexivity].
Qed.

Lemma check_password_policy_cases_witness :
  result (check_password_policy 60 1000 "jdoe") sample_world = None
  /\ result (check_password_policy 60 (timedelta_days 61) "jdoe") sample_world
     = Some (true, "Password expired after 60 days").
Proof.
  destruct (check_password_policy_cases 60 1000 "jdoe" jdoe sample_world
              eq_refl eq_refl) as (_ & Hnone).
  split; [apply Hnone; reflexivity | reflexivity].
Defined.

(** ** Accounts awaiting approval *)




Section PendingApproval.
Context (B1 B2 : Bcrypt) `{TimeZone}.

End PendingApproval.


(** ** The password history check *)

Lemma substring_all (s : string) : String.substring 0 (String.length s) s = s.
Proof. induction s as [|c s IH]; simpl; [reflexivity | rewrite IH; reflexivity]. Qed.

Lemma substring_prefix (s1 s2 : string) :
  String.substring 0 (String.length s1) (s1 +:+ s2) = s1.
Proof.
  induction s1 as [|c s1 IH]; simpl.
  - destruct s2; reflexivity.
  - rewrite IH. reflexivity.
Qed.

Lemma hash_salt_of_salt (salt : string) :
  String.length salt = 29%nat -> hash_salt salt = salt.
Proof. intros Hlen. unfold hash_salt. rewrite <- Hlen. apply substring_all. Qed.

Section HashShape.
Context `{Bcrypt} `{TimeZone}.

(** A hash starts with the salt it was made with. *)
Lemma hash_salt_hash_password (salt password : string) :
  String.length salt = 29%nat ->
  hash_salt (hash_password salt password) = salt.
Proof.
  intros Hlen. unfold hash_password, decode_utf8, hashpw.
  rewrite (hash_salt_of_salt salt Hlen).
  unfold hash_salt. rewrite <- Hlen at 1. apply substring_prefix.
Qed.
End HashShape.

Lemma elem_of_insert_newest_first (r x : history_row)
    (sorted : list history_row) :
  x ∈ insert_newest_first r sorted <-> x = r \/ x ∈ sorted.
Proof.
  induction sorted as [|r' rest IH]; simpl.
  - rewrite list_elem_of_singleton, elem_of_nil. tauto.
  - destruct (hist_created_date r' <? hist_created_date r).
    + rewrite !elem_of_cons. tauto.
    + rewrite !elem_of_cons, IH. tauto.
Qed.

Lemma elem_of_order_by_created_date_desc (x : history_row)
    (rows : list history_row) :
  x ∈ order_by_created_date_desc rows <-> x ∈ rows.
Proof.
  unfold order_by_created_date_desc.
  induction rows as [|r rows IH]; simpl; [reflexivity|].
  rewrite elem_of_insert_newest_first, elem_of_cons, IH. reflexivity.
Qed.

Lemma elem_of_sql_limit {A} (n : Z) (x : A) (rows : list A) :
  x ∈ sql_limit n rows -> x ∈ rows.
Proof.
  unfold sql_limit. destruct (n <? 0); [tauto|].
  apply subseteq_take.
Qed.

(** Newest first: no row is older than one that follows it. *)
Definition newest_first (r1 r2 : history_row) : Prop :=
  hist_created_date r2 <= hist_created_date r1.

Lemma insert_newest_first_sorted (r : history_row)
    (sorted : list history_row) :
  StronglySorted newest_first sorted ->
  StronglySorted newest_first (insert_newest_first r sorted).
Proof.
  induction 1 as [|r' rest Hsorted IH Hall]; simpl.
  - repeat constructor.
  - destruct (hist_created_date r' <? hist_created_date r) eqn:Hnewer.
    + apply Z.ltb_lt in Hnewer. constructor; [constructor; assumption|].
      constructor; [unfold newest_first; lia|].
      eapply Forall_impl; [exact Hall|].
      unfold newest_first. intros; simpl in *; lia.
    + apply Z.ltb_ge in Hnewer. constructor; [assumption|].
      apply Forall_forall. intros x Hx.
      apply elem_of_insert_newest_first in Hx as [->|Hx].
      * exact Hnewer.
      * rewrite Forall_forall in Hall. auto.
Qed.

Lemma order_by_created_date_desc_sorted (rows : list history_row) :
  StronglySorted newest_first (order_by_created_date_desc rows).
Proof.
  unfold order_by_created_date_desc.
  induction rows as [|r rows IH]; simpl; [constructor|].
  apply insert_newest_first_sorted, IH.
Qed.

Section PasswordHistory.
Context `{Bcrypt} `{TimeZone}.

(** C6.  [is_password_in_history] compares the hash of the candidate,
    made with a fresh salt, with the stored hashes of the employee, the
    [history_limit] most recent ones, newest first.  When the fresh salt
    differs from the salt of every stored hash of the employee the answer
    is [False], whatever the candidate and whatever the history, also when
    the query fails. *)
Theorem is_password_in_history_never_matches (w : world)
    (salt new_password : string) (employee_id history_limit : Z) :
  String.length salt = 29%nat ->
  (forall r : history_row,
      r ∈ password_history (db w) ->
      hist_employee_id r = employee_id ->
      hash_salt (hist_password_hash r) <> salt) ->
  let recent :=
    sql_limit history_limit
      (order_by_created_date_desc
         (filter (fun r => hist_employee_id r = employee_id)
            (password_history (db w)))) in
  (faults w = [] ->
     result (is_password_in_history salt employee_id new_password
               history_limit) w
     = existsb (String.eqb (hash_password salt new_password))
         (hist_password_hash <$> recent))
  /\ StronglySorted newest_first
       (order_by_created_date_desc
          (filter (fun r => hist_employee_id r = employee_id)
             (password_history (db w))))
  /\ result (is_password_in_history salt employee_id new_password
               history_limit) w
     = false.
Proof.
  intros Hlen Hfresh recent.
  assert (Hnone :
    existsb (String.eqb (hash_password salt new_password))
      (hist_password_hash <$> recent) = false).
  { apply not_true_is_false. intros Hex.
    apply existsb_exists in Hex as (h & Hin & Heq).
    apply String.eqb_eq in Heq. subst h.
    apply list_elem_of_In, list_elem_of_fmap in Hin as (r & Hr & Hrecent).
    subst recent. apply elem_of_sql_limit in Hrecent.
    rewrite elem_of_order_by_created_date_desc in Hrecent.
    rewrite list_elem_of_filter in Hrecent. destruct Hrecent as (Hid & Hstored).
    apply (Hfresh r Hstored Hid).
    rewrite <- Hr. apply hash_salt_hash_password, Hlen. }
  assert (Hrun :
    forall rows : list string,
      match rows with
      | row :: rows' =>
          existsb (String.eqb (hash_password salt new_password)) (row :: rows')
      | [] => false
      end = existsb (String.eqb (hash_password salt new_password)) rows).
  { intros [|row rows']; reflexivity. }
  split; [|split].
  - intros Hf. unfold result, is_password_in_history, bind.
    rewrite execute_query_ok by assumption.
    unfold select_password_history, ret. cbn [fst snd].
    fold recent. rewrite <- Hrun.
    destruct (hist_password_hash <$> recent); reflexivity.
  - apply order_by_created_date_desc_sorted.
  - unfold result, is_password_in_history, bind,
      DatabaseManager.execute_query.
    destruct (faults w) as [|[[e|e]|] rest];
      unfold select_password_history, ret; cbn [fst snd];
      try reflexivity; fold recent; rewrite <- Hnone, <- Hrun;
      destruct (hist_password_hash <$> recent); reflexivity.
Qed.
End PasswordHistory.

Lemma is_password_in_history_never_matches_witness :
  result (@is_password_in_history sample_bcrypt other_salt 7 "Str0ng!Pw" 5)
    history_world
  = false.
Proof.
  refine (proj2 (proj2 (@is_password_in_history_never_matches sample_bcrypt
                          history_world other_salt "Str0ng!Pw" 7 5
                          eq_refl _))).
  intros r Hr _.
  apply list_elem_of_In in Hr. simpl in Hr.
  destruct Hr as [<-|[<-|[<-|[]]]]; vm_compute; discriminate.
Defined.

(** ** The persistence executor *)




(** ** Authorization *)

(** C8 as stated fails: a user object that is a non-empty string is
    neither falsy nor a tuple nor a dictionary, and the check raises. *)
Lemma permission_check_raises_on_string :
  truthy (PyStr "admin") = true
  /\ isinstance_dict (PyStr "admin") = false
  /\ check_user_permission (PyStr "admin") (PyStr "admin")
     = Raise AttributeError
  /\ check_user_permission (PyList [PyStr "admin"]) (PyStr "employee")
     = Raise AttributeError.
Proof. repeat split. Qed.

(** C8, amended.  [check_user_permission] compares ranks: a manager passes
    a check for [employee] and fails one for [admin]; a corrections
    supervisor passes a check for [admin] and gets, for every required
    role, the answer an admin gets; the answer is [False] for every falsy
    user object and for every tuple; any other user object that is not a
    dictionary raises [AttributeError]. *)
Theorem check_user_permission_ranks :
  (forall entries : list (string * pyobj),
      entries <> [] ->
      dict_get entries "role" (PyStr "employee") = PyStr "manager" ->
      check_user_permission (PyDict entries) (PyStr "employee") = Return true
      /\ check_user_permission (PyDict entries) (PyStr "admin")
         = Return false)
  /\ (forall entries : list (string * pyobj),
        entries <> [] ->
        dict_get entries "role" (PyStr "employee")
        = PyStr "corrections_supervisor" ->
        check_user_permission (PyDict entries) (PyStr "admin") = Return true
        /\ forall (admin_entries : list (string * pyobj))
                  (required_role : pyobj),
             admin_entries <> [] ->
             dict_get admin_entries "role" (PyStr "employee")
             = PyStr "admin" ->
             check_user_permission (PyDict entries) required_role
             = check_user_permission (PyDict admin_entries) required_role)
  /\ (forall user required_role : pyobj,
        truthy user = false \/ isinstance_tuple user = true ->
        check_user_permission user required_role = Return false)
  /\ (forall user required_role : pyobj,
        truthy user = true ->
        isinstance_tuple user = false ->
        isinstance_dict user = false ->
        check_user_permission user required_role = Raise AttributeError).
Proof.
  split; [|split; [|split]].
  - intros entries Hne Hrole. unfold check_user_permission.
    destruct entries as [|entry entries]; [congruence|].
    cbn [truthy length Nat.eqb negb isinstance_tuple orb].
    rewrite Hrole. split; reflexivity.
  - intros entries Hne Hrole. unfold check_user_permission.
    destruct entries as [|entry entries]; [congruence|].
    cbn [truthy length Nat.eqb negb isinstance_tuple orb].
    rewrite Hrole. split; [reflexivity|].
    intros admin_entries required_role Hne' Hadmin.
    destruct admin_entries as [|entry' admin_entries]; [congruence|].
    cbn [truthy length Nat.eqb negb isinstance_tuple orb].
    rewrite Hadmin. reflexivity.
  - intros user required_role [Hfalsy|Htuple]; unfold check_user_permission.
    + rewrite Hfalsy. reflexivity.
    + rewrite Htuple, orb_true_r. reflexivity.
  - intros user required_role Htruthy Htuple Hdict.
    unfold check_user_permission. rewrite Htruthy, Htuple.
    destruct user; try reflexivity. discriminate Hdict.
Qed.

Lemma check_user_permission_ranks_witness :
  check_user_permission
    (PyDict [("username", PyStr "m"); ("role", PyStr "manager")])
    (PyStr "employee") = Return true
  /\ check_user_permission
       (PyDict [("username", PyStr "m"); ("role", PyStr "manager")])
       (PyStr "admin") = Return false
  /\ check_user_permission
       (PyDict [("role", PyStr "corrections_supervisor")])
       (PyStr "admin") = Return true
  /\ check_user_permission (PyDict []) (PyStr "employee") = Return false
  /\ check_user_permission (PyTuple [PyNone; PyStr "Invalid"])
       (PyStr "employee") = Return false
  /\ check_user_permission (PyInt 5) (PyStr "employee")
     = Raise AttributeError.
Proof.
  destruct check_user_permission_ranks
    as (Hmanager & Hsupervisor & Hfalse & Hraise).
  destruct (Hmanager [("username", PyStr "m"); ("role", PyStr "manager")])
    as (Hpass & Hfail); [discriminate | reflexivity |].
  destruct (Hsupervisor [("role", PyStr "corrections_supervisor")])
    as (Hadmin & _); [discriminate | reflexivity |].
  split; [exact Hpass|]. split; [exact Hfail|]. split; [exact Hadmin|].
  split; [apply Hfalse; left; reflexivity|].
  split; [apply Hfalse; right; reflexivity|].
  apply Hraise; reflexivity.
Defined.

(** ** Hashing and verification *)

Lemma eqb_append_prefix (s a b : string) :
  String.eqb (s +:+ a) (s +:+ b) = String.eqb a b.
Proof.
  induction s as [|c s IH]; simpl; [reflexivity|].
  rewrite Ascii.eqb_refl. exact IH.
Qed.


Section HashAndVerify.
Context `{Bcrypt} `{TimeZone}.

Lemma verify_password_digests (salt password other : string) :
  String.length salt = 29%nat ->
  verify_password other (hash_password salt password)
  = String.eqb (bcrypt_digest salt (String.substring 0 72 other))
      (bcrypt_digest salt (String.substring 0 72 password)).
Proof.
  intros Hlen.
  unfold verify_password, checkpw, encode_utf8.
  unfold hashpw at 1.
  rewrite (hash_salt_hash_password salt password Hlen).
  unfold hash_password, decode_utf8, encode_utf8, hashpw.
  rewrite (hash_salt_of_salt salt Hlen).
  apply eqb_append_prefix.
Qed.

End HashAndVerify.


(** * Further properties *)

(** ** More on the lockout state machine *)

(** The records of [login_attempts] as the operations write them: at
    least one failure, and a lockout instant exactly when the failures
    have reached [_MAX_ATTEMPTS]. *)
Definition attempts_well_formed (d : database) : Prop :=
  forall (username : string) (r : login_attempt),
    login_attempts d !! username = Some r ->
    1 <= failed_attempts r
    /\ (lockout_until r = None <-> failed_attempts r < _MAX_ATTEMPTS).

(** A store in which [jdoe] is locked out until the instant 900000004,
    fifteen minutes and four microseconds after the midnight of the time
    line. *)
Definition locked_world : world :=
  world_of {| employees := {[ "jdoe" := jdoe ]};
              login_attempts :=
                {[ "jdoe" := LoginAttempt 5 (Some 900000004) ]};
              password_history := [] |}.

Section ExpiredLockout.
Context `{TimeZone}.

(** Once the lockout instant has passed [check_rate_limit] lets the
    attempt through.  What a further failure writes depends on the date:
    when the UTC date is after the local date of the lockout instant the
    record no longer counts and a new sequence starts at one failure,
    without lockout; until then the record is still read, and the failure
    counts on from its count, locking the username again when that
    reaches [_MAX_ATTEMPTS]. *)
Theorem expired_lockout_next_failure (w : world) (username : string)
    (now t : timestamp) (r : login_attempt) :
  faults w = [] ->
  login_attempts (db w) !! username = Some r ->
  lockout_until r = Some t ->
  t <= now ->
  result (check_rate_limit now username) w = (true, None)
  /\ (date_of t < date_of (utc_of_local now) ->
        login_attempts
          (db (after (update_login_attempts now username false) w))
          !! username
        = Some (LoginAttempt 1 None))
  /\ (date_of (utc_of_local now) <= date_of t ->
        login_attempts
          (db (after (update_login_attempts now username false) w))
          !! username
        = Some (LoginAttempt (failed_attempts r + 1)
                  (if _MAX_ATTEMPTS <=? failed_attempts r + 1
                   then Some (now + timedelta_minutes 15)
                   else None))).
Proof.
  intros Hf Hr Ht Hpast.
  assert (Hlt : (now <? t) = false) by (apply Z.ltb_ge; assumption).
  destruct (after_failure_lookup now username w Hf) as (_ & _ & Hrec).
  split; [|split].
  - unfold result. rewrite check_rate_limit_ok by assumption.
    unfold visible_attempts. rewrite Hr, Ht.
    destruct (after_current_timestamp now t); [|reflexivity].
    rewrite Hlt, andb_false_r. reflexivity.
  - intros Hdate.
    assert (Hvis : after_current_timestamp now t = false)
      by (apply Z.leb_gt; assumption).
    unfold visible_attempts in Hrec. rewrite Hr, Ht, Hvis in Hrec.
    exact Hrec.
  - intros Hdate.
    assert (Hvis : after_current_timestamp now t = true)
      by (apply Z.leb_le; assumption).
    unfold visible_attempts in Hrec. rewrite Hr, Ht, Hvis in Hrec.
    exact Hrec.
Qed.
End ExpiredLockout.

Lemma expired_lockout_next_failure_witness :
  result (@check_rate_limit utc_zone (at_clock 0 20) "jdoe") locked_world
  = (true, None)
  /\ login_attempts
       (db (after (@update_login_attempts utc_zone (at_clock 0 20) "jdoe"
                     false)
              locked_world)) !! "jdoe"
     = Some (LoginAttempt 6 (Some (at_clock 0 35)))
  /\ login_attempts
       (db (after (@update_login_attempts utc_zone (at_clock 24 0) "jdoe"
                     false)
              locked_world)) !! "jdoe"
     = Some (LoginAttempt 1 None).
Proof.
  destruct (@expired_lockout_next_failure utc_zone locked_world "jdoe"
              (at_clock 0 20) 900000004 (LoginAttempt 5 (Some 900000004))
              eq_refl eq_refl eq_refl ltac:(discriminate))
    as (Hallowed & _ & Hsame_date).
  destruct (@expired_lockout_next_failure utc_zone locked_world "jdoe"
              (at_clock 24 0) 900000004 (LoginAttempt 5 (Some 900000004))
              eq_refl eq_refl eq_refl ltac:(discriminate))
    as (_ & Hnext_date & _).
  split; [exact Hallowed|].
  split; [apply Hsame_date; discriminate | apply Hnext_date; reflexivity].
Defined.

Section LockoutFurther.
Context `{Bcrypt} `{TimeZone}.

(** While a lockout is active and the UTC date is not after the local
    date of its instant, [authenticate_user] refuses every password, the
    right one included, with the lockout message, and leaves the world as
    it was: the attempt is not counted and the lockout is not extended. *)
Theorem locked_account_refuses_every_password (w : world)
    (username password : string) (now t : timestamp) (r : login_attempt) :
  faults w = [] ->
  login_attempts (db w) !! username = Some r ->
  _MAX_ATTEMPTS <= failed_attempts r ->
  lockout_until r = Some t ->
  now < t ->
  date_of (utc_of_local now) <= date_of t ->
  authenticate_user now username password w
  = ((None,
      Some ("Account locked. Try again in "
            +:+ pretty ((t - now) `div` 60000000) +:+ " minutes")),
     w).
Proof.
  intros Hf Hr Hmax Ht Hnow Hdate.
  rewrite authenticate_user_ok by assumption.
  unfold result. rewrite check_rate_limit_ok by assumption.
  unfold visible_attempts. rewrite Hr, Ht.
  assert (Hlt : (now <? t) = true) by (apply Z.ltb_lt; assumption).
  assert (Hvis : after_current_timestamp now t = true)
    by (apply Z.leb_le; assumption).
  assert (Hge : (_MAX_ATTEMPTS <=? failed_attempts r) = true)
    by (apply Z.leb_le; assumption).
  rewrite Hvis, Hge, Hlt. cbn [andb fst].
  rewrite quot_minutes_floor by lia. reflexivity.
Qed.

(** [authenticate_user] keeps the records of [login_attempts] well
    formed: every record it leaves counts at least one failure and holds
    a lockout instant exactly when it counts [_MAX_ATTEMPTS] or more. *)
Theorem authenticate_user_keeps_attempts_well_formed (w : world)
    (username password : string) (now : timestamp) :
  faults w = [] ->
  attempts_well_formed (db w) ->
  attempts_well_formed (db (after (authenticate_user now username password) w)).
Proof.
  intros Hf Hwf. unfold after.
  rewrite authenticate_user_ok by assumption.
  assert (Hseen : 0 <= fst (visible_attempts now username (db w))).
  { unfold visible_attempts.
    destruct (login_attempts (db w) !! username) as [r0|] eqn:Hr0;
      [|cbn; lia].
    destruct (Hwf username r0 Hr0) as (Hone & _).
    destruct (lockout_until r0) as [t|]; [|cbn; lia].
    destruct (after_current_timestamp now t); cbn; lia. }
  assert (Hfail :
    attempts_well_formed
      (db (after (update_login_attempts now username false) w))).
  { unfold after. rewrite update_login_attempts_failure by assumption.
    cbn [snd db]. intros u r. cbn [login_attempts].
    destruct (decide (username = u)) as [<-|Hne].
    - rewrite lookup_insert_eq. intros [= <-].
      cbn [failed_attempts lockout_until].
      set (n := fst (visible_attempts now username (db w))) in *.
      clearbody n. cbn zeta.
      destruct (_MAX_ATTEMPTS <=? n + 1) eqn:Hnext.
      + apply Z.leb_le in Hnext. split; [lia|].
        split; [discriminate | lia].
      + apply Z.leb_gt in Hnext. split; [lia|].
        split; [intros _; lia | reflexivity].
    - rewrite lookup_insert_ne by assumption. apply Hwf. }
  destruct (result (check_rate_limit now username) w) as [[] msg];
    [|exact Hwf].
  destruct (employees (db w) !! username) as [e|]; [|exact Hfail].
  destruct (negb (emp_is_approved e)); [exact Hwf|].
  destruct (negb (verify_password password (emp_password e)));
    cbn [snd]; [exact Hfail|].
  unfold after. rewrite update_login_attempts_success by assumption.
  cbn [snd db]. intros u r. cbn [login_attempts].
  destruct (decide (username = u)) as [<-|Hne].
  - rewrite lookup_delete_eq. discriminate.
  - rewrite lookup_delete_ne by assumption. apply Hwf.
Qed.
End LockoutFurther.

Lemma locked_account_refuses_every_password_witness :
  verify_password (H := sample_bcrypt) "Str0ng!Pw" (emp_password jdoe) = true
  /\ @authenticate_user sample_bcrypt utc_zone 4 "jdoe" "Str0ng!Pw"
       locked_world
     = ((None, Some "Account locked. Try again in 15 minutes"), locked_world).
Proof.
  split; [reflexivity|].
  apply (@locked_account_refuses_every_password sample_bcrypt utc_zone
           locked_world "jdoe" "Str0ng!Pw" 4 900000004
           (LoginAttempt 5 (Some 900000004)));
    [reflexivity | reflexivity | discriminate | reflexivity | reflexivity
    | discriminate].
Defined.

Lemma authenticate_user_keeps_attempts_well_formed_witness :
  faults locked_world = []
  /\ attempts_well_formed
       (db (after (@authenticate_user sample_bcrypt utc_zone (at_clock 0 20)
                     "jdoe" "wrong")
              locked_world)).
Proof.
  split; [reflexivity|].
  apply (@authenticate_user_keeps_attempts_well_formed sample_bcrypt utc_zone
           locked_world "jdoe" "wrong" (at_clock 0 20)); [reflexivity|].
  intros u r Hr. cbn in Hr.
  apply lookup_singleton_Some in Hr as [_ <-].
  cbn. unfold _MAX_ATTEMPTS. split; [lia|]. split; [discriminate | lia].
Defined.

Section AuthenticatedUser.
Context `{Bcrypt} `{TimeZone}.

(** [authenticate_user] returns a user only for an account that exists,
    is approved and whose stored hash verifies the password; the user it
    returns carries the stored role, so that a permission check on it,
    for any role name, compares the rank of that name with the rank of
    the stored role and never raises. *)
Theorem authenticated_user_is_the_stored_account (w : world)
    (username password : string) (now : timestamp) (user : pyobj) :
  faults w = [] ->
  fst (result (authenticate_user now username password) w) = Some user ->
  exists e : employee,
    employees (db w) !! username = Some e
    /\ emp_is_approved e = true
    /\ verify_password password (emp_password e) = true
    /\ user = user_dict (user_columns username e)
    /\ snd (result (authenticate_user now username password) w) = None
    /\ forall required_role : string,
         check_user_permission user (PyStr required_role)
         = Return (role_level ROLE_HIERARCHY required_role 0
                   <=? role_level ROLE_HIERARCHY (emp_user_role e) 0).
Proof.
  intros Hf Hok. unfold result in *.
  rewrite authenticate_user_ok in * by assumption.
  destruct (result (check_rate_limit now username) w) as [[] msg];
    [|discriminate Hok].
  destruct (employees (db w) !! username) as [e|]; [|discriminate Hok].
  destruct (emp_is_approved e) eqn:Happroved; cbn [negb] in *;
    [|discriminate Hok].
  destruct (verify_password password (emp_password e)) eqn:Hverify;
    cbn [negb] in *; [|discriminate Hok].
  cbn [fst snd] in *. injection Hok as <-.
  exists e. repeat split; first [assumption | reflexivity].
Qed.

(** A failed attempt is counted under the username that was typed,
    whether or not an account of that name exists: an attempt on an
    unknown username that the rate limit lets through writes a row of
    [login_attempts]. *)
Theorem unknown_username_attempt_is_counted (w : world)
    (username password : string) (now : timestamp) :
  faults w = [] ->
  employees (db w) !! username = None ->
  result (check_rate_limit now username) w = (true, None) ->
  let w' := after (authenticate_user now username password) w in
  let attempts := fst (result (get_failed_login_count now username) w) + 1 in
  result (authenticate_user now username password) w
  = (None, Some "Invalid username or password")
  /\ employees (db w') = employees (db w)
  /\ login_attempts (db w') !! username
     = Some (LoginAttempt attempts
               (if _MAX_ATTEMPTS <=? attempts
                then Some (now + timedelta_minutes _LOCKOUT_MINUTES)
                else None)).
Proof.
  intros Hf Hnone Hrl w' attempts. subst w' attempts.
  unfold result, after in *.
  rewrite authenticate_user_ok by assumption.
  unfold result. rewrite Hrl, Hnone. cbn [fst snd].
  rewrite get_failed_login_count_ok by assumption. cbn [fst].
  destruct (after_failure_lookup now username w Hf) as (_ & Hemp & Hrec).
  repeat split; assumption.
Qed.
End AuthenticatedUser.

Lemma authenticated_user_is_the_stored_account_witness :
  fst (result (@authenticate_user sample_bcrypt utc_zone 0 "jdoe" "Str0ng!Pw")
         sample_world)
  = Some (user_dict (user_columns "jdoe" jdoe))
  /\ check_user_permission (user_dict (user_columns "jdoe" jdoe))
       (PyStr "manager")
     = Return false.
Proof.
  destruct (@authenticated_user_is_the_stored_account sample_bcrypt
              utc_zone sample_world "jdoe" "Str0ng!Pw" 0
              (user_dict (user_columns "jdoe" jdoe)) eq_refl eq_refl)
    as (e & He & _ & _ & _ & _ & Hperm).
  split; [reflexivity|].
  rewrite (Hperm "manager").
  assert (Hjdoe : e = jdoe).
  { cbn in He. rewrite lookup_singleton_eq in He. congruence. }
  rewrite Hjdoe. reflexivity.
Defined.

Lemma unknown_username_attempt_is_counted_witness :
  result (@authenticate_user sample_bcrypt utc_zone 0 "ghost" "x") sample_world
  = (None, Some "Invalid username or password")
  /\ login_attempts
       (db (after (@authenticate_user sample_bcrypt utc_zone 0 "ghost" "x")
              sample_world)) !! "ghost"
     = Some (LoginAttempt 1 None).
Proof.
  destruct (@unknown_username_attempt_is_counted sample_bcrypt utc_zone sample_world
              "ghost" "x" 0 eq_refl eq_refl eq_refl) as (Hres & _ & Hrec).
  split; [exact Hres | exact Hrec].
Defined.

(** ** More on [change_password] and [check_password_policy] *)

Lemma alter_absent {A} (f : A -> A) (k : string) (m : gmap string A) :
  m !! k = None -> alter f k m = m.
Proof.
  intros Hk. apply map_eq. intros k'.
  destruct (decide (k = k')) as [<-|Hne].
  - rewrite lookup_alter_eq, Hk. reflexivity.
  - apply lookup_alter_ne. assumption.
Qed.

Lemma database_eta (d : database) :
  {| employees := employees d; login_attempts := login_attempts d;
     password_history := password_history d |} = d.
Proof. destruct d; reflexivity. Qed.

Section ChangePasswordFurther.
Context `{Bcrypt} `{TimeZone}.

(** A wrong old password changes no password: the answer is [Current
    password is incorrect], the table of employees is untouched, and the
    attempt is counted as a failed login of the username. *)
Theorem change_password_wrong_old_password (w : world) (now : timestamp)
    (salt username old_password new_password : string) (e : employee) :
  faults w = [] ->
  employees (db w) !! username = Some e ->
  emp_is_approved e = true ->
  result (check_rate_limit now username) w = (true, None) ->
  verify_password old_password (emp_password e) = false ->
  let w' :=
    after (change_password now salt username (Some old_password)
             new_password) w in
  let attempts := fst (result (get_failed_login_count now username) w) + 1 in
  result (change_password now salt username (Some old_password)
            new_password) w
  = (false, "Current password is incorrect")
  /\ employees (db w') = employees (db w)
  /\ login_attempts (db w') !! username
     = Some (LoginAttempt attempts
               (if _MAX_ATTEMPTS <=? attempts
                then Some (now + timedelta_minutes _LOCKOUT_MINUTES)
                else None)).
Proof.
  intros Hf He Happroved Hrl Hverify w' attempts. subst w' attempts.
  unfold result, after in *.
  rewrite change_password_old_ok by assumption.
  unfold result, after. rewrite authenticate_user_ok by assumption.
  unfold result. rewrite Hrl, He, Happroved, Hverify. cbn [negb fst snd].
  rewrite get_failed_login_count_ok by assumption. cbn [fst].
  destruct (after_failure_lookup now username w Hf) as (_ & Hemp & Hrec).
  repeat split; assumption.
Qed.

(** After [change_password] has answered with a success, the new password
    opens the account: as soon as the rate limit lets an attempt through,
    [authenticate_user] with the new password returns the user of an
    approved account, with the force-change flag cleared. *)
Theorem changed_password_authenticates (w : world) (now now' : timestamp)
    (salt username new_password : string) (old_password : option string) :
  faults w = [] ->
  String.length salt = 29%nat ->
  fst (result (change_password now salt username old_password new_password)
         w) = true ->
  let w' :=
    after (change_password now salt username old_password new_password) w in
  result (check_rate_limit now' username) w' = (true, None) ->
  exists e : employee,
    employees (db w) !! username = Some e
    /\ employees (db w') !! username
       = Some (with_new_password (hash_password salt new_password) e)
    /\ (emp_is_approved e = true ->
        result (authenticate_user now' username new_password) w'
        = (Some (user_dict
                   (user_columns username
                      (with_new_password (hash_password salt new_password)
                         e))),
           None)).
Proof.
  intros Hf Hlen Hok w' Hrl.
  assert (Hreset :
    forall w0 : world,
      faults w0 = [] ->
      fst (result (change_password now salt username None new_password) w0)
      = true ->
      let w1 := after (change_password now salt username None new_password)
                  w0 in
      faults w1 = []
      /\ exists e : employee,
           employees (db w0) !! username = Some e
           /\ employees (db w1) !! username
              = Some (with_new_password (hash_password salt new_password) e)).
  { intros w0 Hf0 Hok0 w1. subst w1. unfold result, after in *.
    rewrite change_password_reset_ok in * by assumption.
    cbn [fst snd db faults employees] in *.
    destruct (employees (db w0) !! username) as [e|] eqn:He;
      [|discriminate Hok0].
    split; [reflexivity|]. exists e. split; [reflexivity|].
    rewrite lookup_alter_eq, He. reflexivity. }
  assert (Hfound :
    faults w' = []
    /\ exists e : employee,
         employees (db w) !! username = Some e
         /\ employees (db w') !! username
            = Some (with_new_password (hash_password salt new_password) e)).
  { subst w'. destruct old_password as [old|]; [|apply Hreset; assumption].
    unfold result, after in *.
    rewrite change_password_old_ok in * by assumption.
    unfold result, after in *.
    rewrite authenticate_user_ok in * by assumption.
    destruct (result (check_rate_limit now username) w) as [[] msg];
      [|discriminate Hok].
    destruct (employees (db w) !! username) as [e|] eqn:He;
      [|discriminate Hok].
    destruct (negb (emp_is_approved e)); [discriminate Hok|].
    destruct (negb (verify_password old (emp_password e)));
      [discriminate Hok|].
    cbn [fst snd] in *. unfold after in *.
    rewrite update_login_attempts_success in * by assumption.
    cbn [snd] in *.
    match goal with
    | |- context [change_password _ _ _ None _ ?w0] =>
        destruct (Hreset w0 eq_refl Hok) as (Hf1 & e1 & He1 & Hstored)
    end.
    cbn [db employees] in He1. rewrite He in He1. injection He1 as <-.
    split; [exact Hf1|]. exists e. split; [reflexivity | exact Hstored]. }
  destruct Hfound as (Hf' & e & He & Hstored).
  exists e. split; [exact He|]. split; [exact Hstored|].
  intros Happroved. unfold result in *.
  rewrite authenticate_user_ok by assumption.
  unfold result. rewrite Hrl, Hstored.
  cbn [with_new_password emp_is_approved emp_password]. rewrite Happroved.
  cbn [negb].
  assert (Hverify :
    verify_password new_password (hash_password salt new_password) = true).
  { rewrite verify_password_digests by assumption. apply String.eqb_refl. }
  rewrite Hverify. reflexivity.
Qed.

(** For a username that has no account [change_password] answers with a
    failure and leaves the table of employees as it was; on the reset
    path the answer is [Failed to update password] and the whole store is
    unchanged. *)
Theorem change_password_unknown_username (w : world) (now : timestamp)
    (salt username new_password : string) (old_password : option string) :
  faults w = [] ->
  employees (db w) !! username = None ->
  let w' :=
    after (change_password now salt username old_password new_password) w in
  fst (result (change_password now salt username old_password new_password)
         w) = false
  /\ employees (db w') = employees (db w)
  /\ (old_password = None ->
      result (change_password now salt username old_password new_password) w
      = (false, "Failed to update password")
      /\ db w' = db w).
Proof.
  intros Hf Hnone w'. subst w'. unfold result, after.
  destruct old_password as [old|].
  - rewrite change_password_old_ok by assumption.
    unfold result, after. rewrite authenticate_user_ok by assumption.
    rewrite Hnone.
    destruct (result (check_rate_limit now username) w) as [[] msg];
      cbn [fst snd].
    + destruct (after_failure_lookup now username w Hf) as (_ & Hemp & _).
      split; [reflexivity|]. split; [exact Hemp|]. intros Hno.
      discriminate Hno.
    + split; [reflexivity|]. split; [reflexivity|]. intros Hno.
      discriminate Hno.
  - rewrite change_password_reset_ok by assumption.
    rewrite Hnone. cbn [fst snd db employees].
    rewrite (alter_absent _ _ _ Hnone).
    split; [reflexivity|]. split; [reflexivity|]. intros _.
    split; [reflexivity|]. apply database_eta.
Qed.
End ChangePasswordFurther.

(** Without a row to read, because the username is unknown or because the
    query failed, [check_password_policy] asks for a password change. *)
Theorem check_password_policy_without_row (PASSWORD_EXPIRY_DAYS : Z)
    (now : timestamp) (username : string) (w : world) :
  (faults w = [] ->
   employees (db w) !! username = None ->
   result (check_password_policy PASSWORD_EXPIRY_DAYS now username) w
   = Some (true, "Password change required"))
  /\ (forall (f : db_fault) (rest : list (option db_fault)),
        faults w = Some f :: rest ->
        result (check_password_policy PASSWORD_EXPIRY_DAYS now username) w
        = Some (true, "Password change required")).
Proof.
  split.
  - intros Hf Hnone. unfold result, check_password_policy, bind.
    rewrite execute_query_ok by assumption.
    unfold select_employee. cbn [fst snd]. rewrite Hnone. reflexivity.
  - intros f rest Hf. unfold result, check_password_policy, bind,
      DatabaseManager.execute_query.
    rewrite Hf. destruct f; reflexivity.
Qed.

Lemma change_password_wrong_old_password_witness :
  result (@change_password sample_bcrypt utc_zone 0 other_salt "jdoe" (Some "wrong")
            "N3w!Passw0rd") sample_world
  = (false, "Current password is incorrect")
  /\ login_attempts
       (db (after (@change_password sample_bcrypt utc_zone 0 other_salt "jdoe"
                     (Some "wrong") "N3w!Passw0rd") sample_world)) !! "jdoe"
     = Some (LoginAttempt 1 None).
Proof.
  destruct (@change_password_wrong_old_password sample_bcrypt utc_zone sample_world 0
              other_salt "jdoe" "wrong" "N3w!Passw0rd" jdoe
              eq_refl eq_refl eq_refl eq_refl eq_refl) as (Hres & _ & Hrec).
  split; [exact Hres | exact Hrec].
Defined.

Lemma changed_password_authenticates_witness :
  fst (result (@authenticate_user sample_bcrypt utc_zone 1 "jdoe" "N3w!Passw0rd")
         (after (@change_password sample_bcrypt utc_zone 0 other_salt "jdoe"
                   (Some "Str0ng!Pw") "N3w!Passw0rd") sample_world))
  = Some (user_dict
            (user_columns "jdoe"
               (with_new_password
                  (@hash_password sample_bcrypt other_salt "N3w!Passw0rd")
                  jdoe))).
Proof.
  destruct (@changed_password_authenticates sample_bcrypt utc_zone sample_world 0 1
              other_salt "jdoe" "N3w!Passw0rd" (Some "Str0ng!Pw")
              eq_refl eq_refl eq_refl eq_refl) as (e & He & _ & Hauth).
  assert (Hjdoe : e = jdoe).
  { cbn in He. rewrite lookup_singleton_eq in He. congruence. }
  subst e. rewrite (Hauth eq_refl). reflexivity.
Defined.

Lemma change_password_unknown_username_witness :
  result (@change_password sample_bcrypt utc_zone 0 other_salt "ghost" None
            "N3w!Passw0rd") sample_world
  = (false, "Failed to update password")
  /\ db (after (@change_password sample_bcrypt utc_zone 0 other_salt "ghost" None
                  "N3w!Passw0rd") sample_world)
     = db sample_world.
Proof.
  destruct (@change_password_unknown_username sample_bcrypt utc_zone sample_world 0
              other_salt "ghost" "N3w!Passw0rd" None eq_refl eq_refl)
    as (_ & _ & Hreset).
  exact (Hreset eq_refl).
Defined.

Lemma check_password_policy_without_row_witness :
  result (check_password_policy 60 0 "ghost") sample_world
  = Some (true, "Password change required")
  /\ result (check_password_policy 60 0 "jdoe") locked_once
     = Some (true, "Password change required").
Proof.
  split.
  - apply (proj1 (check_password_policy_without_row 60 0 "ghost"
                    sample_world)); reflexivity.
  - apply (proj2 (check_password_policy_without_row 60 0 "jdoe" locked_once)
             (SqliteFault "database is locked") [None]).
    reflexivity.
Defined.

(** ** Administrative operations *)

(** An administrator and a manager, as [authenticate_user] returns
    them. *)
Definition admin_user_dict : pyobj :=
  PyDict [("username", PyStr "admin"); ("role", PyStr "admin")].
Definition manager_user_dict : pyobj :=
  PyDict [("username", PyStr "mgr"); ("role", PyStr "manager")].

Lemma update_flag_ok (username : string) (required : bool) (w : world) :
  faults w = [] ->
  (DatabaseManager.execute_query
     (update_employee_row (with_password_change_required required) username)
     false true ;;
   result <- DatabaseManager.execute_query
               (select_employee (fun _ e => emp_password_change_required e)
                  username) true true ;;
   match result with
   | QRows (flag :: _) =>
       if Bool.eqb flag required then
         ret (Return (true,
                      "Password change requirement updated successfully"))
       else
         ret (Return (false, "Failed to update password change requirement"))
   | _ => ret (Return (false, "Failed to update password change requirement"))
   end) w
  = (match employees (db w) !! username with
     | Some _ =>
         Return (true, "Password change requirement updated successfully")
     | None =>
         Return (false, "Failed to update password change requirement")
     end,
     {| db :=
          {| employees :=
               alter (with_password_change_required required) username
                 (employees (db w));
             login_attempts := login_attempts (db w);
             password_history := password_history (db w) |};
        faults := []; log := log w |}).
Proof.
  intros Hf. destruct w as [d fs l]. simpl in Hf. subst fs.
  unfold bind. rewrite execute_query_ok by reflexivity.
  rewrite execute_query_ok by reflexivity.
  unfold update_employee_row, select_employee, ret.
  cbn [fst snd db log employees login_attempts password_history].
  rewrite lookup_alter_eq.
  destruct (employees d !! username) as [e|];
    cbn [fmap option_fmap option_map]; [|reflexivity].
  cbn [with_password_change_required emp_password_change_required].
  rewrite Bool.eqb_reflx. reflexivity.
Qed.

(** Clearing the force-change flag asks for no credential: with
    [required = False] and no [admin_user], the flag of any existing
    account is cleared, whoever calls, and nothing else changes. *)
Theorem clearing_change_requirement_needs_no_admin (w : world)
    (username : string) (e : employee) :
  faults w = [] ->
  employees (db w) !! username = Some e ->
  let w' :=
    after (update_password_change_requirement username (PyBool false) PyNone)
      w in
  result (update_password_change_requirement username (PyBool false) PyNone)
    w
  = Return (true, "Password change requirement updated successfully")
  /\ employees (db w') !! username
     = Some (with_password_change_required false e)
  /\ (forall other : string,
        other <> username ->
        employees (db w') !! other = employees (db w) !! other)
  /\ login_attempts (db w') = login_attempts (db w).
Proof.
  intros Hf He w'. subst w'. unfold result, after.
  unfold update_password_change_requirement. cbn [is_None is_False andb truthy].
  rewrite update_flag_ok by assumption. rewrite He.
  cbn [fst snd db employees login_attempts].
  split; [reflexivity|]. split; [rewrite lookup_alter_eq, He; reflexivity|].
  split; [|reflexivity].
  intros other Hother. apply lookup_alter_ne. congruence.
Qed.

(** Every other use of [update_password_change_requirement] is refused,
    the world untouched, unless [admin_user] is a user of admin rank:
    setting the flag without an [admin_user], and any change, clearing
    included, asked by a user below admin rank. *)
Theorem change_requirement_refused_without_admin (w : world)
    (username : string) (required admin_user : pyobj) :
  (is_None admin_user = true /\ is_False required = false)
  \/ (is_None admin_user = false
      /\ (truthy admin_user = false
          \/ check_user_permission admin_user (PyStr "admin") = Return false)) ->
  update_password_change_requirement username required admin_user w
  = (Return (false,
             "Only administrators can set password change requirements"),
     w).
Proof.
  unfold update_password_change_requirement.
  intros [[Hnone Hset]|[Hsome [Hfalsy|Hrank]]].
  - rewrite Hnone, Hset. cbn [andb].
    destruct admin_user; try discriminate Hnone. reflexivity.
  - rewrite Hsome, Hfalsy. reflexivity.
  - rewrite Hsome, Hrank. cbn [andb negb].
    destruct (truthy admin_user); reflexivity.
Qed.

(** An administrator, or a corrections supervisor, sets or clears the
    flag of any existing account. *)
Theorem admin_sets_change_requirement (w : world) (username : string)
    (required admin_user : pyobj) (e : employee) :
  faults w = [] ->
  employees (db w) !! username = Some e ->
  truthy admin_user = true ->
  check_user_permission admin_user (PyStr "admin") = Return true ->
  let w' :=
    after (update_password_change_requirement username required admin_user)
      w in
  result (update_password_change_requirement username required admin_user) w
  = Return (true, "Password change requirement updated successfully")
  /\ employees (db w') !! username
     = Some (with_password_change_required (truthy required) e).
Proof.
  intros Hf He Htruthy Hadmin w'. subst w'. unfold result, after.
  unfold update_password_change_requirement.
  assert (Hnot : is_None admin_user = false)
    by (destruct admin_user; try reflexivity; discriminate Htruthy).
  rewrite Hnot, Htruthy, Hadmin. cbn [andb negb].
  rewrite update_flag_ok by assumption. rewrite He.
  cbn [fst snd db employees].
  split; [reflexivity|]. rewrite lookup_alter_eq, He. reflexivity.
Qed.

Lemma clearing_change_requirement_needs_no_admin_witness :
  result (update_password_change_requirement "jdoe" (PyBool false) PyNone)
    sample_world
  = Return (true, "Password change requirement updated successfully").
Proof.
  destruct (clearing_change_requirement_needs_no_admin sample_world "jdoe"
              jdoe eq_refl eq_refl) as (Hres & _).
  exact Hres.
Defined.

Lemma change_requirement_refused_without_admin_witness :
  update_password_change_requirement "jdoe" (PyBool true) PyNone sample_world
  = (Return (false,
             "Only administrators can set password change requirements"),
     sample_world)
  /\ update_password_change_requirement "jdoe" (PyBool false)
       manager_user_dict sample_world
     = (Return (false,
                "Only administrators can set password change requirements"),
        sample_world).
Proof.
  split.
  - apply change_requirement_refused_without_admin. left.
    split; reflexivity.
  - apply change_requirement_refused_without_admin. right.
    split; [reflexivity|]. right. reflexivity.
Defined.

Lemma admin_sets_change_requirement_witness :
  result (update_password_change_requirement "jdoe" (PyBool true)
            admin_user_dict) sample_world
  = Return (true, "Password change requirement updated successfully")
  /\ emp_password_change_required <$>
       employees
         (db (after (update_password_change_requirement "jdoe" (PyBool true)
                       admin_user_dict) sample_world)) !! "jdoe"
     = Some true.
Proof.
  destruct (admin_sets_change_requirement sample_world "jdoe" (PyBool true)
              admin_user_dict jdoe eq_refl eq_refl eq_refl eq_refl)
    as (Hres & Hstored).
  split; [exact Hres|]. rewrite Hstored. reflexivity.
Defined.

(** [authorize_user] answers [True] whatever happens: it sets the role of
    an existing account to any string it is given, without a check of the
    caller or of the role name, and it answers [True] as well when the
    username is unknown or the update fails, the store then unchanged. *)
Theorem authorize_user_always_true (w : world) (username user_role : string) :
  result (authorize_user username user_role) w = true
  /\ (faults w = [] ->
      forall e : employee,
        employees (db w) !! username = Some e ->
        employees (db (after (authorize_user username user_role) w))
          !! username
        = Some (with_user_role user_role e))
  /\ (faults w = [] ->
      employees (db w) !! username = None ->
      db (after (authorize_user username user_role) w) = db w)
  /\ (forall (f : db_fault) (rest : list (option db_fault)),
        faults w = Some f :: rest ->
        db (after (authorize_user username user_role) w) = db w).
Proof.
  unfold result, after, authorize_user, bind.
  split; [|split; [|split]].
  - destruct (DatabaseManager.execute_query _ _ _ w). reflexivity.
  - intros Hf e He. rewrite execute_query_ok by assumption.
    cbn [snd ret db update_employee_row employees].
    rewrite lookup_alter_eq, He. reflexivity.
  - intros Hf Hnone. rewrite execute_query_ok by assumption.
    cbn [snd ret db update_employee_row].
    rewrite (alter_absent _ _ _ Hnone). apply database_eta.
  - intros f rest Hf. unfold DatabaseManager.execute_query. rewrite Hf.
    destruct f; reflexivity.
Qed.

Lemma authorize_user_always_true_witness :
  result (authorize_user "ghost" "superuser") sample_world = true
  /\ db (after (authorize_user "ghost" "superuser") sample_world)
     = db sample_world
  /\ emp_user_role <$>
       employees (db (after (authorize_user "jdoe" "superuser") sample_world))
         !! "jdoe"
     = Some "superuser".
Proof.
  destruct (authorize_user_always_true sample_world "ghost" "superuser")
    as (Htrue & _ & Hunknown & _).
  destruct (authorize_user_always_true sample_world "jdoe" "superuser")
    as (_ & Hset & _).
  split; [exact Htrue|]. split; [exact (Hunknown eq_refl eq_refl)|].
  rewrite (Hset eq_refl jdoe eq_refl). reflexivity.
Defined.

(** ** Registration and approval *)

Lemma dict_get_found (entries : list (string * pyobj)) (key : string)
    (default default' v : pyobj) :
  dict_get entries key default = v ->
  v <> default ->
  dict_get entries key default' = v.
Proof.
  induction entries as [|[k x] entries IH]; simpl; intros Hget Hne.
  - congruence.
  - destruct (String.eqb k key); [assumption | auto].
Qed.

Lemma approve_ok (username : string) (w : world) :
  faults w = [] ->
  (DatabaseManager.execute_query
     (update_employee_row (with_is_approved true) username) false true ;;
   result <- DatabaseManager.execute_query
               (select_employee (fun _ e => emp_is_approved e) username)
               true true ;;
   match result with
   | QRows (true :: _) =>
       ret (Return (true, "User " +:+ username +:+ " has been approved"))
   | _ => ret (Return (false, "Failed to approve user " +:+ username))
   end) w
  = (match employees (db w) !! username with
     | Some _ => Return (true, "User " +:+ username +:+ " has been approved")
     | None => Return (false, "Failed to approve user " +:+ username)
     end,
     {| db :=
          {| employees :=
               alter (with_is_approved true) username (employees (db w));
             login_attempts := login_attempts (db w);
             password_history := password_history (db w) |};
        faults := []; log := log w |}).
Proof.
  intros Hf. destruct w as [d fs l]. simpl in Hf. subst fs.
  unfold bind. rewrite execute_query_ok by reflexivity.
  rewrite execute_query_ok by reflexivity.
  unfold update_employee_row, select_employee, ret.
  cbn [fst snd db log employees login_attempts password_history].
  rewrite lookup_alter_eq.
  destruct (employees d !! username) as [e|];
    cbn [fmap option_fmap option_map]; reflexivity.
Qed.

(** [approve_user] approves nothing for a caller below admin rank: with
    no [admin_user], a falsy one, or a dictionary whose role ranks below
    admin, the answer is a refusal and the world is untouched. *)
Theorem approve_user_refuses_non_admin (w : world) (username : string)
    (admin_user : pyobj) :
  truthy admin_user = false
  \/ (isinstance_dict admin_user = true
      /\ check_user_permission admin_user (PyStr "admin") = Return false) ->
  approve_user username admin_user w
  = (Return (false, "Only administrators can approve user registrations"),
     w).
Proof.
  unfold approve_user. intros [Hfalsy|[Hdict Hrank]].
  - rewrite Hfalsy. reflexivity.
  - destruct admin_user as [| | | | | |entries]; try discriminate Hdict.
    rewrite Hrank.
    destruct (truthy (PyDict entries)) eqn:Htruthy; [|reflexivity].
    cbn [negb].
    destruct (eq_str (dict_get entries "role" PyNone) "corrections_supervisor")
      eqn:Hrole; [|reflexivity].
    exfalso. unfold eq_str in Hrole.
    destruct (dict_get entries "role" PyNone) as [| | |s| | |] eqn:Hget;
      try discriminate Hrole.
    apply String.eqb_eq in Hrole. subst s.
    apply (dict_get_found _ _ _ (PyStr "employee")) in Hget;
      [|discriminate].
    unfold check_user_permission in Hrank.
    rewrite Htruthy, Hget in Hrank. discriminate Hrank.
Qed.

(** Handed a tuple that is not empty, such as the pair returned by
    [authenticate_user], [approve_user] raises [AttributeError] where
    [check_user_permission] alone answers [False]. *)
Theorem approve_user_raises_on_tuple (w : world) (username : string)
    (items : list pyobj) :
  items <> [] ->
  check_user_permission (PyTuple items) (PyStr "admin") = Return false
  /\ approve_user username (PyTuple items) w = (Raise AttributeError, w).
Proof.
  intros Hne. destruct items as [|item items]; [congruence|].
  split; reflexivity.
Qed.

Section ApprovalFlow.
Context `{Bcrypt} `{TimeZone}.

(** An administrator, or a corrections supervisor, approves an existing
    account: the flag is set, nothing else in the row changes, and from
    then on the right password authenticates as soon as the rate limit
    lets an attempt through. *)
Theorem approve_user_opens_account (w : world) (username password : string)
    (admin_user : pyobj) (e : employee) (now : timestamp) :
  faults w = [] ->
  employees (db w) !! username = Some e ->
  truthy admin_user = true ->
  check_user_permission admin_user (PyStr "admin") = Return true ->
  let w' := after (approve_user username admin_user) w in
  result (approve_user username admin_user) w
  = Return (true, "User " +:+ username +:+ " has been approved")
  /\ employees (db w') !! username = Some (with_is_approved true e)
  /\ (verify_password password (emp_password e) = true ->
      result (check_rate_limit now username) w = (true, None) ->
      result (authenticate_user now username password) w'
      = (Some (user_dict (user_columns username (with_is_approved true e))),
         None)).
Proof.
  intros Hf He Htruthy Hadmin w'. subst w'.
  unfold result, after, approve_user.
  rewrite Htruthy, Hadmin. cbn [negb].
  rewrite approve_ok by assumption. rewrite He. cbn [fst snd].
  split; [reflexivity|].
  assert (Hstored :
    alter (with_is_approved true) username (employees (db w)) !! username
    = Some (with_is_approved true e))
    by (rewrite lookup_alter_eq, He; reflexivity).
  split; [exact Hstored|].
  intros Hverify Hrl.
  rewrite authenticate_user_ok by reflexivity.
  unfold result in *. rewrite check_rate_limit_ok in * by reflexivity.
  cbn [fst db] in *.
  change (visible_attempts now username
            {| employees :=
                 alter (with_is_approved true) username (employees (db w));
               login_attempts := login_attempts (db w);
               password_history := password_history (db w) |})
    with (visible_attempts now username (db w)).
  rewrite check_rate_limit_ok in Hrl by assumption. cbn [fst] in Hrl.
  rewrite Hrl. cbn [employees]. rewrite Hstored.
  cbn [with_is_approved emp_is_approved emp_password negb].
  rewrite Hverify. reflexivity.
Qed.
End ApprovalFlow.

Lemma approve_user_refuses_non_admin_witness :
  approve_user "jdoe" manager_user_dict pending_world
  = (Return (false, "Only administrators can approve user registrations"),
     pending_world)
  /\ approve_user "jdoe" PyNone pending_world
     = (Return (false, "Only administrators can approve user registrations"),
        pending_world).
Proof.
  split; apply approve_user_refuses_non_admin.
  - right. split; reflexivity.
  - left. reflexivity.
Defined.

Lemma approve_user_raises_on_tuple_witness :
  approve_user "jdoe"
    (PyTuple [admin_user_dict; PyNone]) pending_world
  = (Raise AttributeError, pending_world).
Proof.
  apply (approve_user_raises_on_tuple pending_world "jdoe"
           [admin_user_dict; PyNone]).
  discriminate.
Defined.

Lemma approve_user_opens_account_witness :
  result (@authenticate_user sample_bcrypt utc_zone 0 "jdoe" "Str0ng!Pw") pending_world
  = (None, Some "Your account is pending admin approval")
  /\ result (approve_user "jdoe" admin_user_dict) pending_world
     = Return (true, "User jdoe has been approved")
  /\ fst (result (@authenticate_user sample_bcrypt utc_zone 0 "jdoe" "Str0ng!Pw")
            (after (approve_user "jdoe" admin_user_dict) pending_world))
     = Some (user_dict (user_columns "jdoe" jdoe_pending)).
Proof.
  destruct (@approve_user_opens_account sample_bcrypt utc_zone pending_world "jdoe"
              "Str0ng!Pw" admin_user_dict jdoe_pending 0
              eq_refl eq_refl eq_refl eq_refl) as (Hres & _ & Hauth).
  split; [reflexivity|]. split; [exact Hres|].
  rewrite (Hauth eq_refl eq_refl). reflexivity.
Defined.



Section RegistrationFlow.
Context `{Bcrypt} `{TimeZone}.

(** Registering a username that is taken fails with the [already exists]
    message, whatever the password, and leaves the world as it was: the
    account that holds the name is not altered. *)
Theorem register_user_existing_username (w : world)
    (salt username password first_name last_name : string) (e : employee) :
  faults w = [] ->
  employees (db w) !! username = Some e ->
  register_user salt username password first_name last_name w
  = ((false, "Username already exists. Please choose a different username."),
     w).
Proof.
  intros Hf He. destruct w as [d fs l]. simpl in Hf, He. subst fs.
  unfold register_user, bind.
  rewrite execute_query_ok by reflexivity.
  unfold select_employee. cbn [fst snd db log]. rewrite He. reflexivity.
Qed.

(** A password that fails the strength policy is refused with the message
    of [validate_password_strength], and nothing is stored. *)
Theorem register_user_weak_password (w : world)
    (salt username password first_name last_name message : string) :
  faults w = [] ->
  employees (db w) !! username = None ->
  validate_password_strength password = (false, message) ->
  register_user salt username password first_name last_name w
  = ((false, message), w).
Proof.
  intros Hf Hnone Hweak. destruct w as [d fs l]. simpl in Hf, Hnone. subst fs.
  unfold register_user, bind.
  rewrite execute_query_ok by reflexivity.
  unfold select_employee. cbn [fst snd db log]. rewrite Hnone, Hweak.
  reflexivity.
Qed.

End RegistrationFlow.

Lemma register_user_existing_username_witness :
  @register_user sample_bcrypt other_salt "jdoe" "An0ther!Pw" "Jane" "Doe"
    sample_world
  = ((false, "Username already exists. Please choose a different username."),
     sample_world).
Proof.
  apply (@register_user_existing_username sample_bcrypt sample_world
           other_salt "jdoe" "An0ther!Pw" "Jane" "Doe" jdoe);
    reflexivity.
Defined.

Lemma register_user_weak_password_witness :
  @register_user sample_bcrypt other_salt "newbie" "short1" "New" "Bie"
    sample_world
  = ((false, "Password must be at least 8 characters long"), sample_world).
Proof.
  apply (@register_user_weak_password sample_bcrypt sample_world other_salt
           "newbie" "short1" "New" "Bie"
           "Password must be at least 8 characters long");
    reflexivity.
Defined.


Section RegistrationEdge.
Context `{Bcrypt} `{TimeZone}.


(** When the query that looks for the username fails, [register_user]
    goes on as if the name were free: for a name that is taken the
    [INSERT] is rejected by the uniqueness constraint and nothing is
    stored, yet the answer is [Registration successful]. *)
Theorem register_user_reports_success_after_failed_lookup (w : world)
    (salt username password first_name last_name message : string)
    (e : employee) (f : db_fault) :
  faults w = [Some f] ->
  employees (db w) !! username = Some e ->
  validate_password_strength password = (true, message) ->
  result (register_user salt username password first_name last_name) w
  = (true, "Registration successful! Please wait for admin approval to login.")
  /\ db (after (register_user salt username password first_name last_name) w)
     = db w.
Proof.
  intros Hf He Hvalid. destruct w as [d fs l]. simpl in Hf, He. subst fs.
  assert (Hinsert :
    forall l0 : list (log_level * string),
      execute_insert_employee username
        (fun id =>
           {| emp_id := id;
              emp_first_name := first_name;
              emp_last_name := last_name;
              emp_user_role := "employee";
              emp_password := hash_password salt password;
              emp_password_change_required := false;
              emp_is_approved := false;
              emp_last_password_change := None |})
        {| db := d; faults := []; log := l0 |}
      = (QFalse,
         {| db := d; faults := [];
            log := l0 ++ [(LOG_ERROR,
                           "Database error: UNIQUE constraint failed: employees.username")] |})).
  { intros l0. unfold execute_insert_employee. cbn [faults db]. rewrite He.
    reflexivity. }
  assert (Hrun :
    exists l' : list (log_level * string),
      register_user salt username password first_name last_name
        {| db := d; faults := [Some f]; log := l |}
      = ((true,
          "Registration successful! Please wait for admin approval to login."),
         {| db := d; faults := []; log := l' |})).
  { unfold register_user, bind.
    unfold DatabaseManager.execute_query at 1. cbn [faults].
    destruct f as [e0|e0]; cbn [fst snd db log]; rewrite Hvalid; cbn [negb];
      rewrite Hinsert; rewrite execute_query_ok by reflexivity;
      unfold select_employee; cbn [fst snd db log]; rewrite He;
      eexists; reflexivity. }
  destruct Hrun as (l' & Hrun). unfold result, after. rewrite Hrun.
  split; reflexivity.
Qed.

End RegistrationEdge.

Lemma register_user_reports_success_after_failed_lookup_witness :
  result (@register_user sample_bcrypt other_salt "jdoe" "An0ther!Pw" "Jane"
            "Doe")
    {| db := db sample_world;
       faults := [Some (SqliteFault "database is locked")];
       log := [] |}
  = (true, "Registration successful! Please wait for admin approval to login.")
  /\ employees
       (db (after (@register_user sample_bcrypt other_salt "jdoe" "An0ther!Pw"
                     "Jane" "Doe")
              {| db := db sample_world;
                 faults := [Some (SqliteFault "database is locked")];
                 log := [] |})) !! "jdoe"
     = Some jdoe.
Proof.
  destruct (@register_user_reports_success_after_failed_lookup sample_bcrypt
              {| db := db sample_world;
                 faults := [Some (SqliteFault "database is locked")];
                 log := [] |}
              other_salt "jdoe" "An0ther!Pw" "Jane" "Doe"
              "Password meets requirements" jdoe
              (SqliteFault "database is locked") eq_refl eq_refl eq_refl)
    as (Hres & Hdb).
  split; [exact Hres|]. rewrite Hdb. reflexivity.
Defined.


(** ** [safe_execute] *)

(** A connection that cannot be opened is not retried: [get_connection]
    logs the error and returns [None], on which the body raises
    [AttributeError]; neither decorator catches it, so the caller
    receives it after a single attempt. *)
Theorem safe_execute_connection_failure_not_retried {R}
    (query : statement R) (fetch fetch_one : bool) (w : world) (e : string)
    (rest : list (option db_fault)) :
  faults w = Some (ConnectionFault e) :: rest ->
  safe_execute query fetch fetch_one w
  = (RaisedOther AttributeError,
     {| db := db w; faults := rest;
        log := log w ++ [(LOG_ERROR, "Database connection error: " +:+ e)] |}).
Proof.
  intros Hf. destruct w as [d fs l]. simpl in Hf. subst fs. reflexivity.
Qed.

(** A statement that fails three times in a row is given up: every
    attempt is rolled back, so the store is as before, and the caller
    receives a [DatabaseError] that wraps the last error twice; each
    failure is logged by the transaction and by the retry loop. *)
Theorem safe_execute_gives_up_after_three_failures {R}
    (query : statement R) (fetch fetch_one : bool) (w : world)
    (e1 e2 e3 : string) (rest : list (option db_fault)) :
  faults w
  = Some (SqliteFault e1) :: Some (SqliteFault e2) :: Some (SqliteFault e3)
    :: rest ->
  safe_execute query fetch fetch_one w
  = (RaisedDatabaseError
       ("Database operation failed after 3 attempts: "
        +:+ "Database operation failed: " +:+ e3),
     {| db := db w; faults := rest;
        log :=
          log w
          ++ [(LOG_ERROR, "Database transaction failed: " +:+ e1)]
          ++ [(LOG_WARNING,
               "Retrying database operation (1/3): "
               +:+ "Database operation failed: " +:+ e1)]
          ++ [(LOG_ERROR, "Database transaction failed: " +:+ e2)]
          ++ [(LOG_WARNING,
               "Retrying database operation (2/3): "
               +:+ "Database operation failed: " +:+ e2)]
          ++ [(LOG_ERROR, "Database transaction failed: " +:+ e3)]
          ++ [(LOG_ERROR,
               "Database operation failed after 3 attempts: "
               +:+ "Database operation failed: " +:+ e3)] |}).
Proof.
  intros Hf. destruct w as [d fs l]. simpl in Hf. subst fs.
  unfold safe_execute, with_retries, with_connection, get_connection,
    safe_execute_body, logger, bind, ret.
  cbn -[app String.append]. rewrite <- !app_assoc. reflexivity.
Qed.

(** A statement that goes through, at once or after one failed attempt,
    is applied to the store exactly once, and its rows are returned in
    the shape asked for: the first row or [None] with [fetch_one], which
    takes precedence, all rows with [fetch], and [None] otherwise. *)
Theorem safe_execute_returns_rows {R} (query : statement R)
    (fetch fetch_one : bool) (w : world) :
  let shape :=
    if fetch_one then FetchedOne (head (fst (query (db w))))
    else if fetch then FetchedAll (fst (query (db w)))
    else FetchedNone in
  (faults w = [] ->
   safe_execute query fetch fetch_one w
   = (Returned shape,
      {| db := snd (query (db w)); faults := []; log := log w |}))
  /\ (forall e : string,
        faults w = [Some (SqliteFault e)] ->
        safe_execute query fetch fetch_one w
        = (Returned shape,
           {| db := snd (query (db w)); faults := [];
              log :=
                log w
                ++ [(LOG_ERROR, "Database transaction failed: " +:+ e)]
                ++ [(LOG_WARNING,
                     "Retrying database operation (1/3): "
                     +:+ "Database operation failed: " +:+ e)] |})).
Proof.
  intros shape. subst shape. destruct w as [d fs l]. cbn [faults db log].
  split.
  - intros ->.
    cbv [safe_execute with_retries with_retries_loop with_connection
         get_connection safe_execute_body bind ret logger faults db log
         negb tail].
    destruct (query d) as [rows d']. reflexivity.
  - intros e ->.
    cbv [safe_execute with_retries with_retries_loop with_connection
         get_connection safe_execute_body bind ret logger faults db log
         negb tail].
    change (0 <? 2) with true.
    cbv [bind ret logger faults db log negb tail fst snd].
    destruct (query d) as [rows d']. cbn [fst snd].
    rewrite <- !app_assoc. reflexivity.
Qed.

Lemma safe_execute_connection_failure_not_retried_witness :
  safe_execute (select_employee user_columns "jdoe") true false
    {| db := db sample_world;
       faults := [Some (ConnectionFault "unable to open database file"); None];
       log := [] |}
  = (RaisedOther AttributeError,
     {| db := db sample_world; faults := [None];
        log := [(LOG_ERROR,
                 "Database connection error: unable to open database file")]
     |}).
Proof.
  apply (safe_execute_connection_failure_not_retried
           (select_employee user_columns "jdoe") true false
           {| db := db sample_world;
              faults :=
                [Some (ConnectionFault "unable to open database file"); None];
              log := [] |}
           "unable to open database file" [None]).
  reflexivity.
Defined.

Lemma safe_execute_gives_up_after_three_failures_witness :
  fst (safe_execute (select_employee user_columns "jdoe") true false
         locked_three_times)
  = RaisedDatabaseError
      "Database operation failed after 3 attempts: Database operation failed: database is locked"
  /\ faults (snd (safe_execute (select_employee user_columns "jdoe") true false
                    locked_three_times))
     = [None].
Proof.
  rewrite (safe_execute_gives_up_after_three_failures
             (select_employee user_columns "jdoe") true false
             locked_three_times "database is locked" "database is locked"
             "database is locked" [None] eq_refl).
  split; reflexivity.
Defined.

Lemma safe_execute_returns_rows_witness :
  fst (safe_execute (select_employee (fun u _ => u) "jdoe") true true
         {| db := db sample_world;
            faults := [Some (SqliteFault "database is locked")];
            log := [] |})
  = Returned (FetchedOne (Some "jdoe"))
  /\ fst (safe_execute (upsert_login_attempts "jdoe" 1 None) false false
            sample_world)
     = Returned FetchedNone.
Proof.
  split.
  - rewrite (proj2 (safe_execute_returns_rows
                      (select_employee (fun u _ => u) "jdoe") true true
                      {| db := db sample_world;
                         faults := [Some (SqliteFault "database is locked")];
                         log := [] |})
               "database is locked" eq_refl).
    reflexivity.
  - rewrite (proj1 (safe_execute_returns_rows
                      (upsert_login_attempts "jdoe" 1 None) false false
                      sample_world) eq_refl).
    reflexivity.
Defined.

(** ** Pruning old backups *)

(** Oldest first. *)
Definition oldest_first (f g : backup_file) : Prop :=
  bf_mtime f <= bf_mtime g.

Lemma insert_by_mtime_Permutation (f : backup_file)
    (sorted : list backup_file) :
  insert_by_mtime f sorted ≡ₚ f :: sorted.
Proof.
  induction sorted as [|g rest IH]; simpl; [reflexivity|].
  destruct (bf_mtime f <=? bf_mtime g); [reflexivity|].
  rewrite IH. apply Permutation_swap.
Qed.

Lemma sort_by_mtime_Permutation (backup_files : list backup_file) :
  sort_by_mtime backup_files ≡ₚ backup_files.
Proof.
  unfold sort_by_mtime.
  induction backup_files as [|f rest IH]; simpl; [reflexivity|].
  rewrite insert_by_mtime_Permutation, IH. reflexivity.
Qed.

Lemma insert_by_mtime_sorted (f : backup_file) (sorted : list backup_file) :
  StronglySorted oldest_first sorted ->
  StronglySorted oldest_first (insert_by_mtime f sorted).
Proof.
  induction 1 as [|g rest Hsorted IH Hall]; simpl.
  - repeat constructor.
  - destruct (bf_mtime f <=? bf_mtime g) eqn:Hle.
    + apply Z.leb_le in Hle. constructor; [constructor; assumption|].
      constructor; [exact Hle|].
      eapply Forall_impl; [exact Hall|].
      unfold oldest_first. intros; simpl in *; lia.
    + apply Z.leb_gt in Hle. constructor; [assumption|].
      rewrite insert_by_mtime_Permutation.
      constructor; [unfold oldest_first; lia | exact Hall].
Qed.

Lemma sort_by_mtime_sorted (backup_files : list backup_file) :
  StronglySorted oldest_first (sort_by_mtime backup_files).
Proof.
  unfold sort_by_mtime.
  induction backup_files as [|f rest IH]; simpl; [constructor|].
  apply insert_by_mtime_sorted, IH.
Qed.

Lemma oldest_first_across (l1 l2 : list backup_file) (f g : backup_file) :
  StronglySorted oldest_first (l1 ++ l2) ->
  f ∈ l1 -> g ∈ l2 -> oldest_first f g.
Proof.
  induction l1 as [|h l1 IH]; simpl; intros Hsorted Hf Hg.
  - apply elem_of_nil in Hf. contradiction.
  - inversion Hsorted as [|? ? Htail Hall]; subst.
    apply elem_of_cons in Hf as [->|Hf].
    + rewrite Forall_forall in Hall. apply Hall.
      apply elem_of_app. right. exact Hg.
    + apply IH; assumption.
Qed.

Lemma sort_by_mtime_length (backup_files : list backup_file) :
  length (sort_by_mtime backup_files) = length backup_files.
Proof. apply Permutation_length, sort_by_mtime_Permutation. Qed.

(** With a positive [max_backups], [clean_old_backups] leaves the
    [max_backups] most recent files and removes the others: every file
    it removes is at least as old as every file it keeps, and the files
    removed and kept are together the files that were there. *)
Theorem clean_old_backups_keeps_the_newest (max_backups : Z)
    (backup_files : list backup_file) :
  1 <= max_backups ->
  let removed := clean_old_backups max_backups backup_files in
  let kept := backups_kept max_backups backup_files in
  removed ++ kept ≡ₚ backup_files
  /\ length kept = Nat.min (length backup_files) (Z.to_nat max_backups)
  /\ (forall f g : backup_file,
        f ∈ removed -> g ∈ kept -> bf_mtime f <= bf_mtime g).
Proof.
  intros Hmax removed kept. subst removed kept.
  unfold backups_kept, clean_old_backups, slice_stop.
  set (sorted := sort_by_mtime backup_files).
  assert (Hlen : length sorted = length backup_files)
    by apply sort_by_mtime_length.
  assert (Hsorted : StronglySorted oldest_first sorted)
    by apply sort_by_mtime_sorted.
  assert (Hperm : sorted ≡ₚ backup_files)
    by apply sort_by_mtime_Permutation.
  destruct (max_backups <? Z.of_nat (length sorted)) eqn:Hmany.
  - apply Z.ltb_lt in Hmany.
    assert (Hneg : (- max_backups <? 0) = true) by (apply Z.ltb_lt; lia).
    rewrite Hneg.
    set (n := Z.to_nat (Z.max 0 (Z.of_nat (length sorted) + - max_backups))).
    assert (Hn : n = (length sorted - Z.to_nat max_backups)%nat)
      by (subst n; lia).
    clearbody n sorted.
    rewrite length_take_le by lia.
    split; [rewrite take_drop; exact Hperm|].
    split; [rewrite length_drop, Nat.min_r by lia; lia|].
    intros f g Hf Hg.
    apply (oldest_first_across (take n sorted) (drop n sorted));
      [rewrite take_drop|..]; assumption.
  - apply Z.ltb_ge in Hmany. cbn [length app]. rewrite drop_0.
    clearbody sorted.
    split; [exact Hperm|]. split; [rewrite Nat.min_l by lia; lia|].
    intros f g Hf. apply elem_of_nil in Hf. contradiction.
Qed.

(** With [max_backups = 0] nothing is removed, however many backups there
    are: the slice [backup_files[:-0]] is empty.  With a negative
    [max_backups] the oldest files are removed, as many as its absolute
    value (all of them when there are fewer): every file removed is at
    least as old as every file kept, and the files removed and kept are
    together the files that were there. *)
Theorem clean_old_backups_without_positive_bound (max_backups : Z)
    (backup_files : list backup_file) :
  max_backups <= 0 ->
  let removed := clean_old_backups max_backups backup_files in
  let kept := backups_kept max_backups backup_files in
  removed ++ kept ≡ₚ backup_files
  /\ length removed
     = Nat.min (length backup_files) (Z.to_nat (- max_backups))
  /\ (forall f g : backup_file,
        f ∈ removed -> g ∈ kept -> bf_mtime f <= bf_mtime g)
  /\ (max_backups = 0 -> removed = []).
Proof.
  intros Hmax removed kept. subst removed kept.
  unfold backups_kept, clean_old_backups, slice_stop.
  set (sorted := sort_by_mtime backup_files).
  assert (Hlen : length sorted = length backup_files)
    by apply sort_by_mtime_length.
  assert (Hsorted : StronglySorted oldest_first sorted)
    by apply sort_by_mtime_sorted.
  assert (Hperm : sorted ≡ₚ backup_files)
    by apply sort_by_mtime_Permutation.
  assert (Hstop : (- max_backups <? 0) = false) by (apply Z.ltb_ge; lia).
  rewrite Hstop.
  destruct (max_backups <? Z.of_nat (length sorted)) eqn:Hmany.
  - set (n := Z.to_nat (Z.min (- max_backups) (Z.of_nat (length sorted)))).
    assert (Hn : n = Nat.min (length sorted) (Z.to_nat (- max_backups)))
      by (subst n; lia).
    assert (Hzero : max_backups = 0 -> n = 0%nat) by (subst n; lia).
    clearbody n sorted.
    rewrite length_take_le by lia.
    split; [rewrite take_drop; exact Hperm|].
    split; [lia|].
    split.
    + intros f g Hf Hg.
      apply (oldest_first_across (take n sorted) (drop n sorted));
        [rewrite take_drop|..]; assumption.
    + intros Hm. rewrite (Hzero Hm). reflexivity.
  - apply Z.ltb_ge in Hmany. cbn [length app]. rewrite drop_0.
    clearbody sorted.
    split; [exact Hperm|]. split; [lia|].
    split; [|reflexivity].
    intros f g Hf. apply elem_of_nil in Hf. contradiction.
Qed.

(** Five backups, given in no particular order. *)
Definition five_backups : list backup_file :=
  [BackupFile "inventory_backup_c.db" 30;
   BackupFile "inventory_backup_a.db" 10;
   BackupFile "inventory_backup_e.db" 50;
   BackupFile "inventory_backup_b.db" 20;
   BackupFile "inventory_backup_d.db" 40].

Lemma clean_old_backups_keeps_the_newest_witness :
  clean_old_backups 2 five_backups
  = [BackupFile "inventory_backup_a.db" 10;
     BackupFile "inventory_backup_b.db" 20;
     BackupFile "inventory_backup_c.db" 30]
  /\ length (backups_kept 2 five_backups) = 2%nat.
Proof.
  destruct (clean_old_backups_keeps_the_newest 2 five_backups)
    as (_ & Hkept & _); [lia|].
  split; [reflexivity | exact Hkept].
Defined.

Lemma clean_old_backups_without_positive_bound_witness :
  clean_old_backups 0 five_backups = []
  /\ clean_old_backups (-2) five_backups
     = [BackupFile "inventory_backup_a.db" 10;
        BackupFile "inventory_backup_b.db" 20]
  /\ length (clean_old_backups (-2) five_backups) = 2%nat
  /\ (forall f g : backup_file,
        f ∈ clean_old_backups (-2) five_backups ->
        g ∈ backups_kept (-2) five_backups ->
        bf_mtime f <= bf_mtime g).
Proof.
  destruct (clean_old_backups_without_positive_bound 0 five_backups
              (Z.le_refl 0)) as (_ & _ & _ & Hnone).
  destruct (clean_old_backups_without_positive_bound (-2) five_backups
              ltac:(discriminate)) as (_ & Hcount & Holdest & _).
  split; [apply Hnone; reflexivity|].
  split; [reflexivity|].
  split; [exact Hcount | exact Holdest].
Defined.

(** ** Role names that are not in the hierarchy *)

Lemma role_level_range (role : string) :
  0 <= role_level ROLE_HIERARCHY role 0 <= 3.
Proof.
  unfold ROLE_HIERARCHY. cbn [role_level].
  repeat match goal with
         | |- context [String.eqb ?a ?b] => destruct (String.eqb a b)
         end; lia.
Qed.

(** A role name that is not a key of [ROLE_HIERARCHY] has rank zero.
    Required of a user, such a name is a check that every user given as
    a non-empty dictionary passes; carried by a user, it fails every
    check for a role of the hierarchy.  A user without a [role] entry is
    ranked as an employee. *)
Theorem roles_outside_the_hierarchy (entries : list (string * pyobj))
    (role : string) :
  entries <> [] ->
  role_level ROLE_HIERARCHY role 0 = 0 ->
  (forall user_role : string,
      dict_get entries "role" (PyStr "employee") = PyStr user_role ->
      check_user_permission (PyDict entries) (PyStr role) = Return true)
  /\ (dict_get entries "role" (PyStr "employee") = PyStr role ->
      forall required_role : string,
        1 <= role_level ROLE_HIERARCHY required_role 0 ->
        check_user_permission (PyDict entries) (PyStr required_role)
        = Return false)
  /\ (dict_get entries "role" (PyStr "employee") = PyStr "employee" ->
      check_user_permission (PyDict entries) (PyStr "employee") = Return true
      /\ check_user_permission (PyDict entries) (PyStr "manager")
         = Return false).
Proof.
  intros Hne Hunknown.
  destruct entries as [|entry entries]; [congruence|].
  unfold check_user_permission.
  cbn [truthy length Nat.eqb negb isinstance_tuple orb].
  split; [|split].
  - intros user_role ->.
    cbn [ROLE_HIERARCHY_get hashable negb pybind]. rewrite Hunknown.
    f_equal. apply Z.leb_le. apply role_level_range.
  - intros -> required_role Hknown.
    cbn [ROLE_HIERARCHY_get hashable negb pybind]. rewrite Hunknown.
    f_equal. apply Z.leb_gt. lia.
  - intros ->. split; reflexivity.
Qed.

Lemma roles_outside_the_hierarchy_witness :
  check_user_permission admin_user_dict (PyStr "superuser") = Return true
  /\ check_user_permission (PyDict [("role", PyStr "manager")])
       (PyStr "Admin") = Return true
  /\ check_user_permission (PyDict [("role", PyStr "supervisor")])
       (PyStr "employee") = Return false.
Proof.
  destruct (roles_outside_the_hierarchy
              [("username", PyStr "admin"); ("role", PyStr "admin")]
              "superuser") as (Hany & _); [discriminate | reflexivity |].
  destruct (roles_outside_the_hierarchy [("role", PyStr "manager")] "Admin")
    as (Hcase & _); [discriminate | reflexivity |].
  destruct (roles_outside_the_hierarchy [("role", PyStr "supervisor")]
              "supervisor") as (_ & Hcarried & _);
    [discriminate | reflexivity |].
  split; [apply (Hany "admin"); reflexivity|].
  split; [apply (Hcase "manager"); reflexivity|].
  apply Hcarried; [reflexivity | vm_compute; discriminate].
Defined.

(** ** [add_employee] of [models.py] *)

Section AddEmployee.
Context `{Bcrypt} `{TimeZone}.

(** [add_employee] refuses a username that is taken and a password that
    fails the strength policy, and stores nothing in either case. *)
Theorem add_employee_refusals (w : world)
    (salt first_name last_name position email phone username password
       user_role : string) :
  faults w = [] ->
  (forall e : employee,
      employees (db w) !! username = Some e ->
      add_employee salt first_name last_name position email phone username
        password user_role w
      = ((false,
          "Username already exists. Please choose a different username."),
         w))
  /\ (forall message : string,
        employees (db w) !! username = None ->
        validate_password_strength password = (false, message) ->
        add_employee salt first_name last_name position email phone username
          password user_role w
        = ((false, message), w)).
Proof.
  intros Hf. destruct w as [d fs l]. simpl in Hf. subst fs.
  unfold add_employee, bind.
  rewrite execute_query_ok by reflexivity.
  unfold select_employee. cbn [fst snd db log].
  split.
  - intros e ->. reflexivity.
  - intros message -> ->. reflexivity.
Qed.

End AddEmployee.

Lemma add_employee_refusals_witness :
  @add_employee sample_bcrypt other_salt "Jane" "Doe" "Officer" "" "" "jdoe"
    "An0ther!Pw" "manager" sample_world
  = ((false, "Username already exists. Please choose a different username."),
     sample_world)
  /\ @add_employee sample_bcrypt other_salt "Jane" "Roe" "Officer" "" ""
       "jroe" "alllowercase1!" "manager" sample_world
     = ((false,
         "Password must contain at least one uppercase letter, one lowercase letter, one number, and one special character"),
        sample_world).
Proof.
  split.
  - apply (proj1 (@add_employee_refusals sample_bcrypt sample_world other_salt
                    "Jane" "Doe" "Officer" "" "" "jdoe" "An0ther!Pw"
                    "manager" eq_refl) jdoe).
    reflexivity.
  - apply (proj2 (@add_employee_refusals sample_bcrypt sample_world other_salt
                    "Jane" "Roe" "Officer" "" "" "jroe" "alllowercase1!"
                    "manager" eq_refl)); reflexivity.
Defined.

